(** * Building-access reporting backend: the controllers, embedded and verified

    Shallow embedding of
    [src/entities/accessHistory/accessHistory.controller.ts] (handlers
    [getAccessHistories], [getRoomAccessHistories]) and of the administration
    controller that follows it in the same source listing (handlers
    [generateDailyReport], [getRoomUsageStats], [getDateReport]).

    Conventions of the embedding.
    - A JavaScript Number holding a fractional quantity (hours) is a binary64
      [float], with the kernel's IEEE operations.  Numbers that are integers by
      construction (row ids, [length]s, SQL counts, epoch milliseconds, the
      result of [parseInt]) are [Z]; they are converted with [Z_to_float]
      (round to nearest even) where the code does float arithmetic with them.
    - A valid [Date] is its time value, milliseconds since the epoch, in [Z];
      an Invalid Date is [None].
    - An async handler is a function on the [World] (tables, pending store
      faults, log of store calls) that returns a response or throws.
    - What the JavaScript host decides (date-string parsing, the local time
      zone, the locale) is a [Host] record the handlers take as argument. *)

From Stdlib Require Import ZArith List String Ascii Bool Lia Floats.
From Stdlib Require Import DecimalString Sorting.Sorted Sorting.Permutation.
From Stdlib Require DecimalNat DecimalFacts.
Import ListNotations.

#[local] Open Scope string_scope.
#[local] Open Scope list_scope.
#[local] Open Scope Z_scope.

(** ** JavaScript built-ins used by the controllers *)

Module JS.

(** *** Numbers *)

(** The Number nearest to a mathematical integer. *)
Definition Z_to_float (n : Z) : float :=
  SF2Prim (binary_normalize prec emax n 0 false).

(** [x > y] and [x <= y] where [x] is an integer or NaN ([None]): both
    are false on NaN. *)
Definition gt (x : option Z) (y : Z) : bool :=
  match x with Some n => y <? n | None => false end.

Definition le (x : option Z) (y : Z) : bool :=
  match x with Some n => n <=? y | None => false end.

(** *** [Number.prototype.toFixed(2)] and [parseFloat]

    The text produced by [x.toFixed(2)], kept structured:
    - ["NaN"], ["Infinity"], ["-Infinity"] for a non-finite [x];
    - for |x| < 1e21, a sign and the integer [n] closest to 100|x|
      (the larger of the two on a tie), printed with the decimal point
      before its last two digits;
    - for |x| >= 1e21, the text of [Number::toString(x)]. *)
Inductive FixedText : Type :=
| TextNaN
| TextInfinity (negative : bool)
| TextDecimal (negative : bool) (hundredths : Z)
| TextToString (x : float).

(** floor (100 * m * 2^e + 1/2) for a positive mantissa [m]. *)
Definition nearest_hundredths (m : positive) (e : Z) : Z :=
  match e with
  | Zneg k => (200 * Zpos m + 2 ^ Zpos k) / 2 ^ (Zpos k + 1)
  | _ => 100 * Zpos m * 2 ^ e
  end.

Definition toFixed2 (x : float) : FixedText :=
  match Prim2SF x with
  | S754_nan => TextNaN
  | S754_infinity s => TextInfinity s
  | S754_zero _ => TextDecimal false 0
  | S754_finite s m e =>
      if (1e21 <=? abs x)%float then TextToString x
      else TextDecimal s (nearest_hundredths m e)
  end.

(** [parseFloat] on such a text: the Number nearest to the decimal it
    spells; [Number::toString] round-trips. *)
Definition parseFloat (t : FixedText) : float :=
  match t with
  | TextNaN => nan
  | TextInfinity s => if s then neg_infinity else infinity
  | TextDecimal s (Zpos n) =>
      SF2Prim (SFdiv prec emax (S754_finite s n 0) (S754_finite false 100 0))
  | TextDecimal s _ => if s then neg_zero else zero
  | TextToString x => x
  end.

(** *** [parseInt(string)] with no radix argument

    A [string] holds a text as its UTF-8 bytes. *)

(** [bytes] encode one code point that the language counts as white space
    or as a line terminator: TAB, LF, VT, FF, CR and SP; U+00A0; U+1680;
    U+2000 to U+200A, U+2028, U+2029 and U+202F; U+205F; U+3000; U+FEFF. *)
Definition isStrWhiteSpaceChar (bytes : list ascii) : bool :=
  match map (fun c => Z.of_nat (nat_of_ascii c)) bytes with
  | [n] => (9 <=? n) && (n <=? 13) || (n =? 32)
  | [n1; n2] => (n1 =? 194) && (n2 =? 160)
  | [n1; n2; n3] =>
      (n1 =? 225) && (n2 =? 154) && (n3 =? 128)
      || (n1 =? 226) && (n2 =? 128)
         && ((128 <=? n3) && (n3 <=? 138) || (n3 =? 168) || (n3 =? 169) || (n3 =? 175))
      || (n1 =? 226) && (n2 =? 129) && (n3 =? 159)
      || (n1 =? 227) && (n2 =? 128) && (n3 =? 128)
      || (n1 =? 239) && (n2 =? 187) && (n3 =? 191)
  | _ => false
  end.

(** The text without its leading white space and line terminators. *)
Fixpoint trimStart (s : string) : string :=
  match s with
  | String c1 s1 =>
      if isStrWhiteSpaceChar [c1] then trimStart s1
      else
        match s1 with
        | String c2 s2 =>
            if isStrWhiteSpaceChar [c1; c2] then trimStart s2
            else
              match s2 with
              | String c3 s3 =>
                  if isStrWhiteSpaceChar [c1; c2; c3] then trimStart s3 else s
              | EmptyString => s
              end
        | EmptyString => s
        end
  | EmptyString => s
  end.

Definition digitValue (c : ascii) : option Z :=
  let n := Z.of_nat (nat_of_ascii c) in
  if (48 <=? n) && (n <=? 57) then Some (n - 48)
  else if (97 <=? n) && (n <=? 122) then Some (n - 87)
  else if (65 <=? n) && (n <=? 90) then Some (n - 55)
  else None.

(** The longest prefix of radix-[R] digits, as an integer; [acc] is [None]
    until a digit has been read. *)
Fixpoint parseDigits (R : Z) (acc : option Z) (s : string) : option Z :=
  match s with
  | EmptyString => acc
  | String c s' =>
      match digitValue c with
      | Some d =>
          if d <? R
          then parseDigits R (Some (R * match acc with Some a => a | None => 0 end + d)) s'
          else acc
      | None => acc
      end
  end.

(** [None] is NaN; [Some n] is the Number of value [n].  The built-in
    rounds [n] to the nearest binary64, which leaves it as it is up to 2^53
    in magnitude: beyond every integer key and every row count.  The sign of
    a zero result is not represented. *)
Definition parseInt (input : string) : option Z :=
  let trimmed := trimStart input in
  let '(sign, unsigned) :=
    match trimmed with
    | String "-" rest => (-1, rest)
    | String "+" rest => (1, rest)
    | _ => (1, trimmed)
    end in
  let '(R, digits) :=
    match unsigned with
    | String "0" (String "x" rest) => (16, rest)
    | String "0" (String "X" rest) => (16, rest)
    | _ => (10, unsigned)
    end in
  option_map (Z.mul sign) (parseDigits R None digits).

(** The decimal text of a non-negative integer, as a SQL driver renders a
    [COUNT]. *)
Definition decimal (n : nat) : string :=
  NilEmpty.string_of_uint (Nat.to_uint n).

(** *** Thrown values and their view in a JSON body *)

(** What a [catch] clause receives: an [Error] instance, with its message
    (an own, non-enumerable property) and its own enumerable properties, or
    a thrown string. *)
Inductive Thrown : Type :=
| ErrorInstance (message : string) (enumerable : list (string * string))
| ThrownString (s : string).

(** [error instanceof Error ? error.message : String(error)] *)
Definition messageOf (error : Thrown) : string :=
  match error with
  | ErrorInstance message _ => message
  | ThrownString s => s
  end.

(** A value as [JSON.stringify] writes it in a response body: an object
    keeps its own enumerable properties only. *)
Inductive Json : Type :=
| JsonString (s : string)
| JsonObject (fields : list (string * string)).

Definition toJSON (error : Thrown) : Json :=
  match error with
  | ErrorInstance _ enumerable => JsonObject enumerable
  | ThrownString s => JsonString s
  end.

End JS.

Import JS.

(** ** The host: what the JavaScript engine and its locale decide *)

(** [Date_parse] is [new Date(string)] ([None] for an Invalid Date; outside
    the ISO format the accepted strings are the engine's choice).  The other
    fields read and build dates in the server's local time zone; months count
    from 0.  [madridWallClock t] is
    [new Date(new Date(t).toLocaleString("en-US", {timeZone: "Europe/Madrid"}))]. *)
Record Host : Type := {
  Date_parse : string -> option Z;
  setHours : Z -> Z -> Z -> Z -> Z -> Z;
  makeDate : Z -> Z -> Z -> Z -> Z -> Z -> Z -> Z;
  getFullYear : Z -> Z;
  getMonth : Z -> Z;
  getDate : Z -> Z;
  madridWallClock : Z -> Z;
  toLocaleDateString : Z -> string
}.

(** A sample host, used to run the handlers on examples: a server whose local
    time zone is UTC, whose [Date] constructor understands calendar dates
    [YYYY-MM-DD] and nothing else, and whose Madrid wall clock is UTC+1. *)
Module UTC.

Definition msPerDay : Z := 86400000.

(** Day number (days since 1970-01-01) of a proleptic Gregorian date;
    [m] counts from 1. *)
Definition days_from_civil (y m d : Z) : Z :=
  let y := if m <=? 2 then y - 1 else y in
  let era := y / 400 in
  let yoe := y - era * 400 in
  let doy := (153 * (if 2 <? m then m - 3 else m + 9) + 2) / 5 + d - 1 in
  let doe := yoe * 365 + yoe / 4 - yoe / 100 + doy in
  era * 146097 + doe - 719468.

(** The inverse: (year, month from 1, day of month). *)
Definition civil_from_days (z : Z) : Z * Z * Z :=
  let z := z + 719468 in
  let era := z / 146097 in
  let doe := z - era * 146097 in
  let yoe := (doe - doe / 1460 + doe / 36524 - doe / 146096) / 365 in
  let doy := doe - (365 * yoe + yoe / 4 - yoe / 100) in
  let mp := (5 * doy + 2) / 153 in
  let d := doy - (153 * mp + 2) / 5 + 1 in
  let m := if mp <? 10 then mp + 3 else mp - 9 in
  ((if m <=? 2 then yoe + era * 400 + 1 else yoe + era * 400), m, d).

Definition localDate (y m d h mi s ms : Z) : Z :=
  (days_from_civil (y + m / 12) (m mod 12 + 1) 1 + (d - 1)) * msPerDay
  + h * 3600000 + mi * 60000 + s * 1000 + ms.

Definition atHours (t h mi s ms : Z) : Z :=
  (t / msPerDay) * msPerDay + h * 3600000 + mi * 60000 + s * 1000 + ms.

Definition year (t : Z) : Z := fst (fst (civil_from_days (t / msPerDay))).
Definition month (t : Z) : Z := snd (fst (civil_from_days (t / msPerDay))) - 1.
Definition dayOfMonth (t : Z) : Z := snd (civil_from_days (t / msPerDay)).

Definition digit (c : ascii) : option Z :=
  let n := Z.of_nat (nat_of_ascii c) in
  if (48 <=? n) && (n <=? 57) then Some (n - 48) else None.

Definition parseDate (s : string) : option Z :=
  match s with
  | String y1 (String y2 (String y3 (String y4 (String "-"
      (String m1 (String m2 (String "-"
        (String d1 (String d2 EmptyString))))))))) =>
      match digit y1, digit y2, digit y3, digit y4,
            digit m1, digit m2, digit d1, digit d2 with
      | Some a, Some b, Some c, Some d, Some e, Some f, Some g, Some h =>
          let y := 1000 * a + 100 * b + 10 * c + d in
          let m := 10 * e + f in
          let d := 10 * g + h in
          if (1 <=? m) && (m <=? 12) && (1 <=? d) && (d <=? 31)
          then Some (days_from_civil y m d * msPerDay)
          else None
      | _, _, _, _, _, _, _, _ => None
      end
  | _ => None
  end.

Definition dateString (t : Z) : string :=
  let '(y, m, d) := civil_from_days (t / msPerDay) in
  decimal (Z.to_nat m) ++ "/" ++ decimal (Z.to_nat d) ++ "/" ++ decimal (Z.to_nat y).

Definition host : Host := {|
  Date_parse := parseDate;
  setHours := atHours;
  makeDate := localDate;
  getFullYear := year;
  getMonth := month;
  getDate := dayOfMonth;
  madridWallClock := fun t => t + 3600000;
  toLocaleDateString := dateString
|}.

End UTC.

(** ** Entities

    Rows as the controllers read them, with the relations that [find] loads
    attached (the handlers dereference [person] and [room] unguarded).  A
    nullable column is an [option]; a timestamp is the time value of its
    [Date]. *)

(** Modelled from the spec: the [person] entity, whose declaration is not
    part of the sources; the fields are those the handlers read. *)
Module person.
Record t : Type := { id : Z; name : string; surnames : string }.
End person.

(** Modelled from the spec: the [room] entity, whose declaration is not part
    of the sources; the fields are those the handlers read. *)
Module room.
Record t : Type := { id : Z; room_name : string }.
End room.

(** Modelled from the spec: the [accessHistory] entity, whose declaration is
    not part of the sources: an access event with its entry and nullable exit
    timestamps, the [room_id] column the room handler filters on, and the two
    relations. *)
Module accessHistory.
Record t : Type := {
  id : Z;
  room_id : Z;
  person : person.t;
  room : room.t;
  entry_datetime : Z;
  exit_datetime : option Z
}.
End accessHistory.

(** Modelled from the spec: the [access] entity, whose declaration is not
    part of the sources: an access event with its entry and nullable exit
    timestamps, its state (the handlers compare it with ['cancelled']), the
    [person_id] column the grouped query selects, and the two relations. *)
Module access.
Record t : Type := {
  id : Z;
  person_id : Z;
  person : person.t;
  room : room.t;
  entry_datetime : Z;
  exit_datetime : option Z;
  state : string
}.
End access.

(** One entry of a cohort list in a report. *)
Module userSummary.
Record t : Type := { name : string; accessCount : option Z }.
End userSummary.

(** Modelled from the spec: the [administration] entity (the report
    snapshot), whose declaration is not part of the sources; the fields are
    the five the handlers assign.  The two cohort fields hold the
    [JSON.stringify] text of a list; the list stands for its text. *)
Module administration.
Record t : Type := {
  report_date : Z;
  total_accesses : Z;
  total_absences : Z;
  frequent_users : list userSummary.t;
  infrequent_users : list userSummary.t
}.
End administration.

(** ** The world of a request, and async computations over it *)

Inductive StoreCall : Type :=
| accessHistory_find
| room_findOne
| room_find
| access_find
| access_getRawMany
| administration_save.

(** The tables, the clock, the outcome decided for each store call to come
    ([Some e]: the call throws [e] and changes nothing; past the end of the
    list calls succeed), and the log of the store calls made so far. *)
Record World : Type := {
  clock : Z;
  db_room : list room.t;
  db_accessHistory : list accessHistory.t;
  db_access : list access.t;
  db_administration : list administration.t;
  pending : list (option Thrown);
  log : list StoreCall
}.

Inductive Completion (A : Type) : Type :=
| Returned (a : A)
| Threw (e : Thrown).
Arguments Returned {A} a.
Arguments Threw {A} e.

Definition Async (A : Type) : Type := World -> Completion A * World.

Definition ret {A : Type} (a : A) : Async A := fun w => (Returned a, w).

Definition bind {A B : Type} (m : Async A) (k : A -> Async B) : Async B :=
  fun w =>
    match m w with
    | (Returned a, w') => k a w'
    | (Threw e, w') => (Threw e, w')
    end.

(** [try { body } catch (error) { handler }] around a handler body: the
    request always completes with a response. *)
Definition tryCatch {A : Type} (body : Async A) (handler : Thrown -> A) : World -> A * World :=
  fun w =>
    match body w with
    | (Returned a, w') => (a, w')
    | (Threw e, w') => (handler e, w')
    end.

Notation "'let*' x ':=' m 'in' k" := (bind m (fun x => k))
  (at level 10, x name, m at level 200, k at level 200).

(** [await promise]: the computation itself; a rejection is a throw. *)
Definition await {A : Type} (promise : Async A) : Async A := promise.

(** [new Date()] *)
Definition Date_now : Async Z := fun w => (Returned (clock w), w).

(** The world once a store call has been issued: the call is logged and its
    pending outcome consumed. *)
Definition called (c : StoreCall) (w : World) : World :=
  {| clock := clock w; db_room := db_room w;
     db_accessHistory := db_accessHistory w; db_access := db_access w;
     db_administration := db_administration w;
     pending := tl (pending w); log := log w ++ [c] |}.

(** A store call: issued, then thrown or run as its pending outcome says. *)
Definition storeCall {A : Type} (c : StoreCall) (run : World -> A * World) : Async A :=
  fun w =>
    match pending w with
    | Some e :: _ => (Threw e, called c w)
    | _ => let (a, w') := run (called c w) in (Returned a, w')
    end.

(** ** TypeORM operations *)

Module typeorm.

(** [Between(from, to)] on a timestamp column: SQL [BETWEEN], both ends
    included. *)
Definition Between (from to value : Z) : bool := (from <=? value) && (value <=? to).

(** [Not(IsNull())] *)
Definition NotIsNull {A : Type} (value : option A) : bool :=
  match value with Some _ => true | None => false end.

(** [ORDER BY key DESC]: rows with equal keys keep their table order. *)
Fixpoint insertDesc {A : Type} (key : A -> Z) (x : A) (sorted : list A) : list A :=
  match sorted with
  | [] => [x]
  | y :: rest =>
      if key y <=? key x then x :: sorted else y :: insertDesc key x rest
  end.

Definition orderByDesc {A : Type} (key : A -> Z) (rows : list A) : list A :=
  fold_right (insertDesc key) [] rows.

(** [repository.find({ where, order: { entry_datetime: 'DESC' } })] *)
Definition accessHistory_find_desc (where_ : accessHistory.t -> bool)
  : Async (list accessHistory.t) :=
  storeCall accessHistory_find
    (fun w => (orderByDesc accessHistory.entry_datetime
                 (filter where_ (db_accessHistory w)), w)).

(** [room.findOne({ where: { id } })]; [None] is [null]. *)
Definition room_findOne_by_id (id : Z) : Async (option room.t) :=
  storeCall room_findOne
    (fun w => (find (fun r => room.id r =? id) (db_room w), w)).

(** [room.find()] *)
Definition room_find_all : Async (list room.t) :=
  storeCall room_find (fun w => (db_room w, w)).

(** [access.find({ where })], in table order. *)
Definition access_find_where (where_ : access.t -> bool) : Async (list access.t) :=
  storeCall access_find (fun w => (filter where_ (db_access w), w)).

(** A raw row of the grouped query: [COUNT] comes back as decimal text. *)
Module rawUser.
Record t : Type := {
  userId : Z;
  accessCount : string;
  name : string;
  surnames : string
}.
End rawUser.

(** The columns of [GROUP BY access.person_id, person.name, person.surnames]. *)
Definition GroupKey : Type := Z * string * string.

Definition groupKey (a : access.t) : GroupKey :=
  (access.person_id a, person.name (access.person a), person.surnames (access.person a)).

Definition groupKey_eqb (k k' : GroupKey) : bool :=
  let '(i, n, s) := k in
  let '(i', n', s') := k' in
  (i =? i') && String.eqb n n' && String.eqb s s'.

(** Add one row to its group, opening the group at the end if it is new. *)
Fixpoint countInto (k : GroupKey) (groups : list (GroupKey * nat)) : list (GroupKey * nat) :=
  match groups with
  | [] => [(k, 1%nat)]
  | (k', n) :: rest =>
      if groupKey_eqb k k' then (k', S n) :: rest else (k', n) :: countInto k rest
  end.

(** [SELECT ..., COUNT( * ) ... GROUP BY ...] *)
Definition groupCount (keys : list GroupKey) : list (GroupKey * nat) :=
  fold_left (fun groups k => countInto k groups) keys [].

Definition rawRow (g : GroupKey * nat) : rawUser.t :=
  let '((i, n, s), c) := g in
  {| rawUser.userId := i; rawUser.accessCount := decimal c;
     rawUser.name := n; rawUser.surnames := s |}.

(** The group columns of the rows kept by
    [WHERE entry_datetime BETWEEN :start AND :end AND exit_datetime IS NOT NULL],
    joined with their person. *)
Definition completedKeys (start end_ : Z) (rows : list access.t) : list GroupKey :=
  map groupKey
    (filter (fun a => Between start end_ (access.entry_datetime a)
                      && NotIsNull (access.exit_datetime a)) rows).

(** The query built with [createQueryBuilder]: those rows grouped by
    person, counted, most frequent first. *)
Definition countByPerson (start end_ : Z) (rows : list access.t) : list rawUser.t :=
  map rawRow
    (orderByDesc (fun g => Z.of_nat (snd g))
       (groupCount (completedKeys start end_ rows))).

Definition access_getRawMany_countByPerson (start end_ : Z) : Async (list rawUser.t) :=
  storeCall access_getRawMany (fun w => (countByPerson start end_ (db_access w), w)).

(** [entity.save()] of a new report: a row appended to the table. *)
Definition administration_save_new (row : administration.t) : Async unit :=
  storeCall administration_save
    (fun w => (tt, {| clock := clock w; db_room := db_room w;
                      db_accessHistory := db_accessHistory w; db_access := db_access w;
                      db_administration := db_administration w ++ [row];
                      pending := pending w; log := log w |})).

End typeorm.

(** ** Express requests and responses *)

Module express.

(** A value of [req.query]: absent, a string, or what the query parser
    makes of repeated and bracketed keys. *)
Inductive QueryValue : Type :=
| QUndefined
| QString (s : string)
| QArray (items : list string)
| QObject.

(** [!value] *)
Definition falsy (v : QueryValue) : bool :=
  match v with
  | QUndefined => true
  | QString EmptyString => true
  | _ => false
  end.

(** [typeof value !== 'string'] *)
Definition notString (v : QueryValue) : bool :=
  match v with QString _ => false | _ => true end.

(** [new Date(value)]: a string is parsed; an object is first converted
    to its primitive, which for an array is its items joined by commas. *)
Definition newDate (host : Host) (v : QueryValue) : option Z :=
  match v with
  | QUndefined => None
  | QString s => Date_parse host s
  | QArray items => Date_parse host (String.concat "," items)
  | QObject => Date_parse host "[object Object]"
  end.

Record Query : Type := { start_date : QueryValue; end_date : QueryValue }.
Record Params : Type := { room_id : string }.
Record Request : Type := { query : Query; params : Params }.

(** What [res.status(code).json(body)] sends. *)
Record Response (D : Type) : Type := {
  status : Z;
  success : bool;
  message : string;
  error : option Json;
  data : option D
}.
Arguments status {D} _.
Arguments success {D} _.
Arguments message {D} _.
Arguments error {D} _.
Arguments data {D} _.

Definition failure {D : Type} (code : Z) (msg : string) : Response D :=
  {| status := code; success := false; message := msg; error := None; data := None |}.

Definition failureWith {D : Type} (code : Z) (msg : string) (err : Json) : Response D :=
  {| status := code; success := false; message := msg; error := Some err; data := None |}.

Definition ok {D : Type} (code : Z) (msg : string) (d : D) : Response D :=
  {| status := code; success := true; message := msg; error := None; data := Some d |}.

End express.

Import express.

(** ** accessHistory.controller.ts *)

Module formattedHistory.
Record t : Type := {
  id : Z;
  person_name : string;
  room_name : string;
  entry_datetime : Z;
  exit_datetime : option Z
}.
End formattedHistory.

Module roomHistories.
Record t : Type := {
  room_id : Z;
  room_name : string;
  access_histories : list formattedHistory.t
}.
End roomHistories.

(** The callback of [histories.map(...)] in both handlers. *)
Definition formatHistory (history : accessHistory.t) : formattedHistory.t :=
  {| formattedHistory.id := accessHistory.id history;
     formattedHistory.person_name :=
       person.name (accessHistory.person history) ++ " "
       ++ person.surnames (accessHistory.person history);
     formattedHistory.room_name := room.room_name (accessHistory.room history);
     formattedHistory.entry_datetime := accessHistory.entry_datetime history;
     formattedHistory.exit_datetime := accessHistory.exit_datetime history |}.

Definition getAccessHistories_body (host : Host) (req : Request)
  : Async (Response (list formattedHistory.t)) :=
  let start_date := start_date (query req) in
  let end_date := end_date (query req) in
  if falsy start_date || falsy end_date || notString start_date || notString end_date
  then ret (failure 400 "Start date and end date are required")
  else
    let startDate := newDate host start_date in
    let endDate := newDate host end_date in
    match startDate, endDate with
    | Some startTime, Some endTime0 =>
        let endTime := setHours host endTime0 23 59 59 999 in
        let* histories := await
          (typeorm.accessHistory_find_desc
            (fun h => typeorm.Between startTime endTime (accessHistory.entry_datetime h))) in
        let formattedHistories := map formatHistory histories in
        ret (ok 200 "Access histories retrieved successfully" formattedHistories)
    | _, _ => ret (failure 400 "Invalid date format. Use YYYY-MM-DD")
    end.

Definition getAccessHistories (host : Host) (req : Request)
  : World -> Response (list formattedHistory.t) * World :=
  tryCatch (getAccessHistories_body host req)
    (fun error =>
       failureWith 500 "An error occurred while fetching access histories"
         (JsonString (messageOf error))).

Definition getRoomAccessHistories_body (host : Host) (req : Request)
  : Async (Response roomHistories.t) :=
  let start_date := start_date (query req) in
  let end_date := end_date (query req) in
  match parseInt (room_id (params req)) with
  | None => ret (failure 400 "Invalid room ID")
  | Some room_id =>
      if falsy start_date || falsy end_date || notString start_date || notString end_date
      then ret (failure 400 "Start date and end date are required")
      else
        let startDate := newDate host start_date in
        let endDate := newDate host end_date in
        match startDate, endDate with
        | Some startTime, Some endTime0 =>
            let endTime := setHours host endTime0 23 59 59 999 in
            let* roomExists := await (typeorm.room_findOne_by_id room_id) in
            match roomExists with
            | None => ret (failure 404 "Room not found")
            | Some roomExists =>
                let* histories := await
                  (typeorm.accessHistory_find_desc
                    (fun h => (accessHistory.room_id h =? room_id)
                              && typeorm.Between startTime endTime
                                   (accessHistory.entry_datetime h))) in
                let formattedHistories := map formatHistory histories in
                ret (ok 200 "Room access histories retrieved successfully"
                       {| roomHistories.room_id := room_id;
                          roomHistories.room_name := room.room_name roomExists;
                          roomHistories.access_histories := formattedHistories |})
            end
        | _, _ => ret (failure 400 "Invalid date format. Use YYYY-MM-DD")
        end
  end.

Definition getRoomAccessHistories (host : Host) (req : Request)
  : World -> Response roomHistories.t * World :=
  tryCatch (getRoomAccessHistories_body host req)
    (fun error =>
       failureWith 500 "Error getting room access histories"
         (JsonString (messageOf error))).

(** ** administration.controller.ts *)

Module accessLine.
Record t : Type := { person : string; room : string; entry_time : Z; exit_time : option Z }.
End accessLine.

Module absenceLine.
Record t : Type := { person : string; room : string; scheduled_entry_time : Z }.
End absenceLine.

Module detailedReport.
Record t : Type := {
  report_period_start_date : Z;
  report_period_end_date : Z;
  total_accesses : Z;
  total_absences : Z;
  accesses : list accessLine.t;
  absences : list absenceLine.t;
  frequent_users : list userSummary.t;
  infrequent_users : list userSummary.t
}.
End detailedReport.

Definition accessLineOf (a : access.t) : accessLine.t :=
  {| accessLine.person :=
       person.name (access.person a) ++ " " ++ person.surnames (access.person a);
     accessLine.room := room.room_name (access.room a);
     accessLine.entry_time := access.entry_datetime a;
     accessLine.exit_time := access.exit_datetime a |}.

Definition absenceLineOf (a : access.t) : absenceLine.t :=
  {| absenceLine.person :=
       person.name (access.person a) ++ " " ++ person.surnames (access.person a);
     absenceLine.room := room.room_name (access.room a);
     absenceLine.scheduled_entry_time := access.entry_datetime a |}.

Definition userSummaryOf (u : typeorm.rawUser.t) : userSummary.t :=
  {| userSummary.name := typeorm.rawUser.name u ++ " " ++ typeorm.rawUser.surnames u;
     userSummary.accessCount := parseInt (typeorm.rawUser.accessCount u) |}.

(** [allActiveUsers.filter(user => parseInt(user.accessCount) > 3)] *)
Definition frequentUsers (allActiveUsers : list typeorm.rawUser.t) : list typeorm.rawUser.t :=
  filter (fun user => gt (parseInt (typeorm.rawUser.accessCount user)) 3) allActiveUsers.

(** [allActiveUsers.filter(user => parseInt(user.accessCount) <= 3)] *)
Definition infrequentUsers (allActiveUsers : list typeorm.rawUser.t) : list typeorm.rawUser.t :=
  filter (fun user => le (parseInt (typeorm.rawUser.accessCount user)) 3) allActiveUsers.

(** The [detailedReport] object literal. *)
Definition detailedReportOf (from to : Z) (accesses absences : list access.t)
  (allActiveUsers : list typeorm.rawUser.t) : detailedReport.t :=
  let totalAccesses := Z.of_nat (List.length accesses) in
  let totalAbsences := Z.of_nat (List.length absences) in
  let frequentUsers := frequentUsers allActiveUsers in
  let infrequentUsers := infrequentUsers allActiveUsers in
  {| detailedReport.report_period_start_date := from;
     detailedReport.report_period_end_date := to;
     detailedReport.total_accesses := totalAccesses;
     detailedReport.total_absences := totalAbsences;
     detailedReport.accesses := map accessLineOf accesses;
     detailedReport.absences := map absenceLineOf absences;
     detailedReport.frequent_users := map userSummaryOf frequentUsers;
     detailedReport.infrequent_users := map userSummaryOf infrequentUsers |}.

(** The [newReport] entity once its five fields are assigned. *)
Definition newReportOf (report_date : Z) (detailedReport : detailedReport.t)
  : administration.t :=
  {| administration.report_date := report_date;
     administration.total_accesses := detailedReport.total_accesses detailedReport;
     administration.total_absences := detailedReport.total_absences detailedReport;
     administration.frequent_users := detailedReport.frequent_users detailedReport;
     administration.infrequent_users := detailedReport.infrequent_users detailedReport |}.

(** [where: { entry_datetime: Between(from, to), exit_datetime: Not(IsNull()) }] *)
Definition whereCompleted (from to : Z) (a : access.t) : bool :=
  typeorm.Between from to (access.entry_datetime a)
  && typeorm.NotIsNull (access.exit_datetime a).

(** [where: { entry_datetime: Between(from, to), state: 'cancelled' }] *)
Definition whereCancelled (from to : Z) (a : access.t) : bool :=
  typeorm.Between from to (access.entry_datetime a)
  && String.eqb (access.state a) "cancelled".

(** The part the two report handlers share, from the first query to the
    201 response: [from] and [to] bound the period, [report_date] dates the
    snapshot. *)
Definition generateReport (from to report_date : Z) (successMessage : string)
  : Async (Response detailedReport.t) :=
  let* accesses := await (typeorm.access_find_where (whereCompleted from to)) in
  let* absences := await (typeorm.access_find_where (whereCancelled from to)) in
  let* allActiveUsers := await (typeorm.access_getRawMany_countByPerson from to) in
  let detailedReport := detailedReportOf from to accesses absences allActiveUsers in
  let newReport := newReportOf report_date detailedReport in
  let* _ := await (typeorm.administration_save_new newReport) in
  ret (ok 201 successMessage detailedReport).

(** [new Date(now.getFullYear(), now.getMonth(), 1)], then
    [setHours(0, 0, 0, 0)]. *)
Definition startOfMonth (host : Host) (now : Z) : Z :=
  setHours host (makeDate host (getFullYear host now) (getMonth host now) 1 0 0 0 0)
    0 0 0 0.

(** [new Date(now.getFullYear(), now.getMonth(), now.getDate(), 23, 59, 59, 999)] *)
Definition endOfToday (host : Host) (now : Z) : Z :=
  makeDate host (getFullYear host now) (getMonth host now) (getDate host now)
    23 59 59 999.

Definition generateDailyReport_body (host : Host) (req : Request)
  : Async (Response detailedReport.t) :=
  let* clockTime := Date_now in
  let now := madridWallClock host clockTime in
  generateReport (startOfMonth host now) (endOfToday host now) now
    "Daily report generated and saved successfully".

Definition generateDailyReport (host : Host) (req : Request)
  : World -> Response detailedReport.t * World :=
  tryCatch (generateDailyReport_body host req)
    (fun error => failureWith 500 "Error generating daily report" (toJSON error)).

Definition getDateReport_body (host : Host) (req : Request)
  : Async (Response detailedReport.t) :=
  let start_date := start_date (query req) in
  let end_date := end_date (query req) in
  if falsy start_date || falsy end_date
  then ret (failure 400 "Start date and end date are required")
  else
    let startDate := newDate host start_date in
    let endDate := option_map (fun t => setHours host t 23 59 59 999) (newDate host end_date) in
    match startDate, endDate with
    | Some startTime, Some endTime =>
        generateReport startTime endTime startTime
          "Custom report generated and saved successfully"
    | _, _ => ret (failure 400 "Invalid date format. Use YYYY-MM-DD")
    end.

Definition getDateReport (host : Host) (req : Request)
  : World -> Response detailedReport.t * World :=
  tryCatch (getDateReport_body host req)
    (fun error => failureWith 500 "Error generating custom report" (toJSON error)).

Module roomStat.
Record t : Type := {
  room_id : Z;
  room_name : string;
  total_accesses : Z;
  completed_accesses : Z;
  cancelled_accesses : Z;
  total_hours_used : float;
  average_duration : float
}.
End roomStat.

Module usageResponse.
Record t : Type := {
  period : string;
  days_in_period : Z;
  total_accesses : Z;
  total_cancellations : Z;
  total_hours_used : float;
  room_stats : list roomStat.t
}.
End usageResponse.

(** [date.getTime()] as the Number the arithmetic below works on. *)
Definition getTime (date : Z) : float := Z_to_float date.

(** [accesses.filter(a => a.room.id === room.id)] *)
Definition roomAccesses (accesses : list access.t) (room : room.t) : list access.t :=
  filter (fun a => room.id (access.room a) =? room.id room) accesses.

(** [roomAccesses.filter(a => a.exit_datetime !== null)] *)
Definition completedAccesses (roomAccesses : list access.t) : list access.t :=
  filter (fun a => match access.exit_datetime a with Some _ => true | None => false end)
    roomAccesses.

(** [roomAccesses.filter(a => a.state === 'cancelled')] *)
Definition cancelledAccesses (roomAccesses : list access.t) : list access.t :=
  filter (fun a => String.eqb (access.state a) "cancelled") roomAccesses.

(** One step of the [forEach] over the completed accesses, on the pair
    ([totalHours], [totalDuration]). *)
Definition addDuration (totals : float * float) (a : access.t) : float * float :=
  let '(totalHours, totalDuration) := totals in
  match access.exit_datetime a with
  | Some exit_datetime =>
      let duration :=
        ((getTime exit_datetime - getTime (access.entry_datetime a))
         / Z_to_float (1000 * 60 * 60))%float in
      ((totalHours + duration)%float, (totalDuration + duration)%float)
  | None => totals
  end.

(** [completedAccesses.length > 0 ? totalDuration / completedAccesses.length : 0] *)
Definition averageDuration (totalDuration : float) (completed : list access.t) : float :=
  if 0 <? Z.of_nat (List.length completed)
  then (totalDuration / Z_to_float (Z.of_nat (List.length completed)))%float
  else zero.

(** The callback of [rooms.map(...)]. *)
Definition roomStats1 (accesses : list access.t) (room : room.t) : roomStat.t :=
  let roomAccesses := roomAccesses accesses room in
  let completedAccesses := completedAccesses roomAccesses in
  let cancelledAccesses := cancelledAccesses roomAccesses in
  let totalAccesses :=
    Z.of_nat (List.length roomAccesses) - Z.of_nat (List.length cancelledAccesses) in
  let '(totalHours, totalDuration) := fold_left addDuration completedAccesses (zero, zero) in
  let averageDuration := averageDuration totalDuration completedAccesses in
  {| roomStat.room_id := room.id room;
     roomStat.room_name := room.room_name room;
     roomStat.total_accesses := totalAccesses;
     roomStat.completed_accesses := Z.of_nat (List.length completedAccesses);
     roomStat.cancelled_accesses := Z.of_nat (List.length cancelledAccesses);
     roomStat.total_hours_used := parseFloat (toFixed2 totalHours);
     roomStat.average_duration := parseFloat (toFixed2 averageDuration) |}.

Definition roomStats (rooms : list room.t) (accesses : list access.t) : list roomStat.t :=
  map (roomStats1 accesses) rooms.

Definition getRoomUsageStats_body (host : Host) (req : Request)
  : Async (Response usageResponse.t) :=
  let* now := Date_now in
  let startDate := makeDate host (getFullYear host now) (getMonth host now) 1 0 0 0 0 in
  let endDate := endOfToday host now in
  let* accesses := await
    (typeorm.access_find_where
       (fun a => typeorm.Between startDate endDate (access.entry_datetime a))) in
  let* rooms := await typeorm.room_find_all in
  let daysInPeriod := getDate host now in
  let roomStats := roomStats rooms accesses in
  let totalAccesses :=
    fold_left (fun sum stat => sum + roomStat.total_accesses stat) roomStats 0 in
  let totalCancellations :=
    fold_left (fun sum stat => sum + roomStat.cancelled_accesses stat) roomStats 0 in
  let totalHoursUsed :=
    fold_left (fun sum stat => (sum + roomStat.total_hours_used stat)%float) roomStats zero in
  let response :=
    {| usageResponse.period :=
         toLocaleDateString host startDate ++ " to " ++ toLocaleDateString host endDate;
       usageResponse.days_in_period := daysInPeriod;
       usageResponse.total_accesses := totalAccesses;
       usageResponse.total_cancellations := totalCancellations;
       usageResponse.total_hours_used := parseFloat (toFixed2 totalHoursUsed);
       usageResponse.room_stats := roomStats |} in
  ret (ok 200
         "Room usage statistics from the beginning of the month to today retrieved successfully"
         response).

Definition getRoomUsageStats (host : Host) (req : Request)
  : World -> Response usageResponse.t * World :=
  tryCatch (getRoomUsageStats_body host req)
    (fun error => failureWith 500 "Error retrieving room usage statistics" (toJSON error)).

(** ** Sample data for the worked examples *)

Module Sample.

Definition lab : room.t := {| room.id := 1; room.room_name := "Lab" |}.
Definition hall : room.t := {| room.id := 2; room.room_name := "Hall" |}.

Definition ana : person.t :=
  {| person.id := 1; person.name := "Ana"; person.surnames := "Ruiz" |}.
Definition luis : person.t :=
  {| person.id := 2; person.name := "Luis"; person.surnames := "Vidal" |}.

(** 2024-03-15T00:00:00Z *)
Definition day : Z := 1710460800000.

(** An access of person [p] to room [r] on [day]; times are milliseconds
    after midnight. *)
Definition visit (id : Z) (p : person.t) (r : room.t) (entry : Z) (exit_ : option Z)
  (state : string) : access.t :=
  {| access.id := id; access.person_id := person.id p; access.person := p;
     access.room := r; access.entry_datetime := day + entry;
     access.exit_datetime := option_map (Z.add day) exit_; access.state := state |}.

Definition at_ (h m : Z) : Z := h * 3600000 + m * 60000.

(** Entry 10:00, exit 11:30, completed. *)
Definition completedVisit (p : person.t) (r : room.t) : access.t :=
  visit 1 p r (at_ 10 0) (Some (at_ 11 30)) "completed".

(** Entry 09:00, no exit, cancelled. *)
Definition cancelledBooking (p : person.t) (r : room.t) : access.t :=
  visit 2 p r (at_ 9 0) None "cancelled".

(** Entry 10:00, exit 11:30, then marked cancelled. *)
Definition cancelledAfterExit (p : person.t) (r : room.t) : access.t :=
  visit 3 p r (at_ 10 0) (Some (at_ 11 30)) "cancelled".

(** A stay of 10.8 seconds: 0.003 hours. *)
Definition shortVisit (id : Z) (p : person.t) (r : room.t) : access.t :=
  visit id p r (at_ 8 0) (Some (at_ 8 0 + 10800)) "completed".

Definition twoShortVisits : list access.t :=
  [shortVisit 1 ana lab; shortVisit 2 luis lab].

(** Ana completes four visits, Luis one, and Luis cancels a booking. *)
Definition busyDay : list access.t :=
  [visit 1 ana lab (at_ 8 0) (Some (at_ 9 0)) "completed";
   visit 2 luis lab (at_ 9 0) (Some (at_ 9 30)) "completed";
   visit 3 ana hall (at_ 10 0) (Some (at_ 11 0)) "completed";
   visit 4 ana lab (at_ 12 0) (Some (at_ 12 30)) "completed";
   visit 5 luis hall (at_ 13 0) None "cancelled";
   visit 6 ana lab (at_ 13 0) (Some (at_ 13 45)) "completed"].

Definition history (id : Z) (p : person.t) (r : room.t) (entry : Z) (exit_ : option Z)
  : accessHistory.t :=
  {| accessHistory.id := id; accessHistory.room_id := room.id r;
     accessHistory.person := p; accessHistory.room := r;
     accessHistory.entry_datetime := day + entry;
     accessHistory.exit_datetime := option_map (Z.add day) exit_ |}.

(** Three stays, stored in the order 09:00, 12:00, 10:00. *)
Definition histories : list accessHistory.t :=
  [history 1 ana lab (at_ 9 0) (Some (at_ 9 30));
   history 2 luis hall (at_ 12 0) None;
   history 3 luis lab (at_ 10 0) (Some (at_ 11 0))].

(** 14:00 on [day]; two rooms; no store call is going to fail. *)
Definition world (rows : list access.t) : World :=
  {| clock := day + at_ 14 0; db_room := [lab; hall];
     db_accessHistory := histories; db_access := rows;
     db_administration := []; pending := []; log := [] |}.

(** The same, with a database that refuses the next connection. *)
Definition refusing (rows : list access.t) : World :=
  {| clock := day + at_ 14 0; db_room := [lab; hall];
     db_accessHistory := histories; db_access := rows;
     db_administration := [];
     pending := [Some (ErrorInstance "connect ECONNREFUSED 127.0.0.1:3306"
                         [("code", "ECONNREFUSED"); ("syscall", "connect")])];
     log := [] |}.

Definition request (start_date end_date : QueryValue) (room_id : string) : Request :=
  {| query := {| start_date := start_date; end_date := end_date |};
     params := {| room_id := room_id |} |}.

Definition march : Request :=
  request (QString "2024-03-01") (QString "2024-03-31") "1".

Definition notADate : Request :=
  request (QString "not-a-date") (QString "2024-03-31") "1".

Definition unknownRoom : Request :=
  request (QString "2024-03-01") (QString "2024-03-31") "7".

End Sample.

(** ** Vocabulary of the statements *)

(** The person a raw row stands for. *)
Definition rowKey (u : typeorm.rawUser.t) : typeorm.GroupKey :=
  (typeorm.rawUser.userId u, typeorm.rawUser.name u, typeorm.rawUser.surnames u).

Definition hasKey (k : typeorm.GroupKey) (u : typeorm.rawUser.t) : bool :=
  typeorm.groupKey_eqb k (rowKey u).

(** The number of rows of a group. *)
Definition rowsOf (k : typeorm.GroupKey) (keys : list typeorm.GroupKey) : nat :=
  List.length (filter (typeorm.groupKey_eqb k) keys).

(** The count recorded for a key, 0 when it has no group. *)
Definition tally (k : typeorm.GroupKey) (groups : list (typeorm.GroupKey * nat)) : nat :=
  match find (fun g => typeorm.groupKey_eqb k (fst g)) groups with
  | Some g => snd g
  | None => 0%nat
  end.

(** [u] is listed before [v]: both counts are numbers and [u]'s is not the
    smaller. *)
Definition countDescending (u v : typeorm.rawUser.t) : Prop :=
  exists m n,
    parseInt (typeorm.rawUser.accessCount u) = Some m
    /\ parseInt (typeorm.rawUser.accessCount v) = Some n
    /\ n <= m.

(** [x] is listed before [y] under [ORDER BY key DESC]. *)
Definition descending {A : Type} (key : A -> Z) (x y : A) : Prop := key y <= key x.

(** [entry_datetime: Between(from, to)]: the access is of the period. *)
Definition inPeriod (from to : Z) (a : access.t) : bool :=
  typeorm.Between from to (access.entry_datetime a).

(** The report a world yields for a period. *)
Definition reportFor (from to : Z) (w : World) : detailedReport.t :=
  detailedReportOf from to
    (filter (whereCompleted from to) (db_access w))
    (filter (whereCancelled from to) (db_access w))
    (typeorm.countByPerson from to (db_access w)).

(** A request turned away with [code] before anything was asked of the
    store: the world, log included, is as it was. *)
Definition rejected {D : Type} (code : Z) (out : Response D * World) (w : World) : Prop :=
  status (fst out) = code /\ success (fst out) = false /\ snd out = w.

(** A date parameter that passes validation in every handler: a non-empty
    string that the host parses. *)
Definition validDateParam (host : Host) (v : QueryValue) : bool :=
  negb (falsy v) && negb (notString v)
  && match newDate host v with Some _ => true | None => false end.



(** The life cycle of an access event in the data model: an event is
    mutated once, on exit or on cancellation, so a cancelled event has no
    exit_datetime. *)
Definition lifeCycle (a : access.t) : Prop :=
  access.state a = "cancelled" -> access.exit_datetime a = None.

(** The event is not cancelled. *)
Definition notCancelled (a : access.t) : bool :=
  negb (String.eqb (access.state a) "cancelled").

(** The event is not cancelled and has an exit_datetime. *)
Definition completedEvent (a : access.t) : bool :=
  notCancelled a && typeorm.NotIsNull (access.exit_datetime a).

(** No store call to come is going to throw. *)
Definition calm (w : World) : Prop := Forall (fun o => o = None) (pending w).





(** ** Vocabulary of the further properties *)

(** The tables and the clock are those of [w]: nothing was written. *)
Definition sameTables (w w' : World) : Prop :=
  clock w' = clock w
  /\ db_room w' = db_room w
  /\ db_accessHistory w' = db_accessHistory w
  /\ db_access w' = db_access w
  /\ db_administration w' = db_administration w.

(** The log of [w'] is the log of [w] followed by the first calls of
    [calls], in order: each call issued at most once, none out of turn. *)
Definition issued (calls : list StoreCall) (w w' : World) : Prop :=
  exists n, log w' = log w ++ firstn n calls.

(** The shape of a response body: a success carries data and no error; a
    400 or a 404 carries neither; a 500 carries an error and no data. *)
Definition envelope {D : Type} (r : Response D) : Prop :=
  ((status r = 200 \/ status r = 201)
   /\ success r = true /\ data r <> None /\ error r = None)
  \/ ((status r = 400 \/ status r = 404)
      /\ success r = false /\ data r = None /\ error r = None)
  \/ (status r = 500 /\ success r = false /\ data r = None /\ error r <> None).

(** The count of a cohort entry, 0 for NaN. *)
Definition countOf (u : userSummary.t) : Z :=
  match userSummary.accessCount u with Some n => n | None => 0 end.

(** The sum of the counts of a cohort. *)
Definition countSum (users : list userSummary.t) : Z :=
  fold_right (fun u sum => countOf u + sum) 0 users.

(** The room of an access is one of the listed rooms. *)
Definition inRooms (rooms : list room.t) (a : access.t) : bool :=
  existsb (fun r => room.id (access.room a) =? room.id r) rooms.

(** [new Date(now.getFullYear(), now.getMonth(), 1)]: the first day of the
    current month, at local midnight. *)
Definition monthStart (host : Host) (now : Z) : Z :=
  makeDate host (getFullYear host now) (getMonth host now) 1 0 0 0 0.



(** ** More sample data *)

Module Cases.

Definition attic : room.t := {| room.id := 3; room.room_name := "Attic" |}.

Definition eva : person.t :=
  {| person.id := 3; person.name := "Eva"; person.surnames := "Soler" |}.

(** The busy day, with a booking that Eva cancelled. *)
Definition withEva : list access.t :=
  Sample.cancelledBooking eva Sample.lab :: Sample.busyDay.

Definition notARoom : Request :=
  Sample.request (QString "2024-03-01") (QString "2024-03-31") "lab".

Definition repeatedStart : Request :=
  Sample.request (QArray ["2024-03-01"; "2024-03-02"]) (QString "2024-03-31") "1".


(** A room id with text after its number. *)
Definition trailingText : Request :=
  Sample.request (QString "2024-03-01") (QString "2024-03-31") "12abc".

Definition inverted : Request :=
  Sample.request (QString "2024-03-31") (QString "2024-03-01") "1".

(** 2024-03-01 and 2024-03-31, at midnight, and the end of the latter. *)
Definition march1 : Z := 1709251200000.
Definition march31 : Z := 1711843200000.
Definition march31End : Z := 1711929599999.

End Cases.

(** * Properties *)

(** ** Room usage statistics *)

Section RoomUsage.

(** [totalHours] and [totalDuration] receive the same additions. *)
Lemma addDuration_same : forall l x,
  fst (fold_left addDuration l (x, x)) = snd (fold_left addDuration l (x, x)).
Proof.
  induction l as [|a l IH]; intros x; [reflexivity|].
  cbn [fold_left]. unfold addDuration at 2 4.
  destruct (access.exit_datetime a); apply IH.
Qed.

(** The statistics of a room, read off the definition: every figure is a
    function of the room's accesses with an exit and of those cancelled. *)
Lemma roomStats1_fields : forall accesses r,
  let completed := completedAccesses (roomAccesses accesses r) in
  let T := fst (fold_left addDuration completed (zero, zero)) in
  roomStat.completed_accesses (roomStats1 accesses r) = Z.of_nat (List.length completed)
  /\ roomStat.cancelled_accesses (roomStats1 accesses r)
     = Z.of_nat (List.length (cancelledAccesses (roomAccesses accesses r)))
  /\ roomStat.total_hours_used (roomStats1 accesses r) = parseFloat (toFixed2 T)
  /\ roomStat.average_duration (roomStats1 accesses r)
     = parseFloat (toFixed2 (averageDuration T completed)).
Proof.
  intros accesses r completed T. unfold roomStats1.
  fold completed.
  pose proof (addDuration_same completed zero) as E.
  subst T.
  destruct (fold_left addDuration completed (zero, zero)) as [h d].
  simpl in E. subst d. simpl. repeat split; reflexivity.
Qed.

(** Under the life cycle, the accesses with an exit are the completed
    events. *)
Lemma completedAccesses_lifeCycle : forall l,
  (forall a, In a l -> lifeCycle a) ->
  completedAccesses l = filter completedEvent l.
Proof.
  intros l Hl. unfold completedAccesses. apply filter_ext_in. intros a Ha.
  unfold completedEvent, notCancelled, typeorm.NotIsNull.
  destruct (String.eqb (access.state a) "cancelled") eqn:Hstate; [|reflexivity].
  apply String.eqb_eq in Hstate. rewrite (Hl a Ha Hstate). reflexivity.
Qed.

(** Leaving the cancelled events out of the list leaves the completed
    events of each room as they are. *)
Lemma completedEvent_notCancelled : forall l r,
  filter completedEvent (roomAccesses (filter notCancelled l) r)
  = filter completedEvent (roomAccesses l r).
Proof.
  intros l r. unfold roomAccesses.
  induction l as [|a l IH]; [reflexivity|].
  assert (Hce : notCancelled a = false -> completedEvent a = false).
  { intros Hn. unfold completedEvent. rewrite Hn. reflexivity. }
  cbn [filter].
  destruct (notCancelled a) eqn:Hn; cbn [filter];
    destruct (room.id (access.room a) =? room.id r); cbn [filter];
    rewrite ?(Hce eq_refl), IH; reflexivity.
Qed.

End RoomUsage.

Section RoomUsageClaims.

(** C5: the worked example.  For the two events (entry 10:00, exit 11:30,
    completed) and (entry 09:00, no exit, cancelled) of one room, the
    room's statistics are completed_accesses = 1, cancelled_accesses = 1,
    total_hours_used = 1.5 and average_duration = 1.5. *)
Theorem C5_worked_example : forall (p q : person.t) (r : room.t),
  let stat := roomStats1 [Sample.completedVisit p r; Sample.cancelledBooking q r] r in
  roomStat.completed_accesses stat = 1
  /\ roomStat.cancelled_accesses stat = 1
  /\ roomStat.total_hours_used stat = 1.5%float
  /\ roomStat.average_duration stat = 1.5%float.
Proof.
  intros p q r stat.
  destruct (roomStats1_fields [Sample.completedVisit p r; Sample.cancelledBooking q r] r)
    as (Hc & Hx & Hh & Ha).
  fold stat in Hc, Hx, Hh, Ha.
  assert (Hroom : roomAccesses [Sample.completedVisit p r; Sample.cancelledBooking q r] r
                  = [Sample.completedVisit p r; Sample.cancelledBooking q r]).
  { unfold roomAccesses. cbn. rewrite Z.eqb_refl. reflexivity. }
  rewrite Hroom in Hc, Hx, Hh, Ha.
  rewrite Hc, Hx, Hh, Ha.
  repeat split; vm_compute; reflexivity.
Qed.

(** C1: for every list of access events that obey the life cycle of the
    data model, a cancelled event contributes to no room's completed-access
    count, total hours or average duration: the completed count is the
    number of the room's events that are not cancelled and have an
    exit_datetime, the hours are summed over those events only, and the
    three figures are those of the list without its cancelled events. *)
Theorem C1_cancelled_events_are_not_counted : forall accesses r,
  (forall a, In a (roomAccesses accesses r) -> lifeCycle a) ->
  let stat := roomStats1 accesses r in
  let completed := filter completedEvent (roomAccesses accesses r) in
  let T := fst (fold_left addDuration completed (zero, zero)) in
  roomStat.completed_accesses stat = Z.of_nat (List.length completed)
  /\ roomStat.total_hours_used stat = parseFloat (toFixed2 T)
  /\ roomStat.average_duration stat = parseFloat (toFixed2 (averageDuration T completed))
  /\ roomStat.completed_accesses stat
     = roomStat.completed_accesses (roomStats1 (filter notCancelled accesses) r)
  /\ roomStat.total_hours_used stat
     = roomStat.total_hours_used (roomStats1 (filter notCancelled accesses) r)
  /\ roomStat.average_duration stat
     = roomStat.average_duration (roomStats1 (filter notCancelled accesses) r).
Proof.
  intros accesses r Hlife stat completed T.
  destruct (roomStats1_fields accesses r) as (Hc & _ & Hh & Ha).
  destruct (roomStats1_fields (filter notCancelled accesses) r) as (Hc' & _ & Hh' & Ha').
  assert (Hlife' : forall a,
            In a (roomAccesses (filter notCancelled accesses) r) -> lifeCycle a).
  { intros a Hin. apply Hlife. unfold roomAccesses in *.
    apply filter_In in Hin. destruct Hin as [Hin Hroom].
    apply filter_In in Hin. apply filter_In. split; [exact (proj1 Hin) | exact Hroom]. }
  rewrite (completedAccesses_lifeCycle _ Hlife) in Hc, Hh, Ha.
  rewrite (completedAccesses_lifeCycle _ Hlife'), completedEvent_notCancelled
    in Hc', Hh', Ha'.
  fold completed in Hc, Hh, Ha, Hc', Hh', Ha'. fold T in Hh, Ha, Hh', Ha'.
  fold stat in Hc, Hh, Ha.
  rewrite Hc', Hh', Ha'. repeat split; assumption.
Qed.

Lemma C1_cancelled_events_are_not_counted_witness :
  roomStat.completed_accesses
    (roomStats1 [Sample.completedVisit Sample.ana Sample.lab;
                 Sample.cancelledBooking Sample.luis Sample.lab] Sample.lab)
  = Z.of_nat
      (List.length
         (filter completedEvent
            (roomAccesses [Sample.completedVisit Sample.ana Sample.lab;
                           Sample.cancelledBooking Sample.luis Sample.lab] Sample.lab)))
  /\ roomStat.total_hours_used
       (roomStats1 [Sample.completedVisit Sample.ana Sample.lab;
                    Sample.cancelledBooking Sample.luis Sample.lab] Sample.lab)
     = roomStat.total_hours_used
         (roomStats1
            (filter notCancelled
               [Sample.completedVisit Sample.ana Sample.lab;
                Sample.cancelledBooking Sample.luis Sample.lab]) Sample.lab).
Proof.
  destruct (C1_cancelled_events_are_not_counted
              [Sample.completedVisit Sample.ana Sample.lab;
               Sample.cancelledBooking Sample.luis Sample.lab] Sample.lab)
    as (H1 & _ & _ & _ & H5 & _).
  - intros a [<- | [<- | []]] Hstate; [discriminate Hstate | reflexivity].
  - exact (conj H1 H5).
Defined.

(** The code keeps cancelled events out of the completed figures through
    their missing exit_datetime only: it never looks at the state.  An
    event outside the life cycle, cancelled after its exit, is counted and
    its hours are summed. *)
Example cancelled_after_exit_is_counted :
  ~ lifeCycle (Sample.cancelledAfterExit Sample.ana Sample.lab)
  /\ roomStat.completed_accesses
       (roomStats1 [Sample.cancelledAfterExit Sample.ana Sample.lab] Sample.lab) = 1
  /\ roomStat.completed_accesses (roomStats1 [] Sample.lab) = 0.
Proof.
  split; [intros H; discriminate (H eq_refl) | split; vm_compute; reflexivity].
Qed.

(** What the statistics of that event are. *)
Example cancelled_with_exit_stats :
  roomStats1 [Sample.cancelledAfterExit Sample.ana Sample.lab] Sample.lab
  = {| roomStat.room_id := 1; roomStat.room_name := "Lab";
       roomStat.total_accesses := 0; roomStat.completed_accesses := 1;
       roomStat.cancelled_accesses := 1; roomStat.total_hours_used := 1.5;
       roomStat.average_duration := 1.5 |}.
Proof. vm_compute. reflexivity. Qed.

(** Two filters that no row passes together select at most the whole
    list. *)
Lemma filter_length_disjoint : forall (A : Type) (p q : A -> bool) (l : list A),
  (forall x, In x l -> p x = true -> q x = true -> False) ->
  (List.length (filter p l) + List.length (filter q l) <= List.length l)%nat.
Proof.
  induction l as [|x l IH]; intros Hdisj; [apply Nat.le_refl|].
  assert (IH' := IH (fun y Hy => Hdisj y (or_intror Hy))).
  pose proof (Hdisj x (or_introl eq_refl)) as Hx.
  cbn [filter].
  destruct (p x), (q x); cbn [List.length];
    first [lia | exfalso; apply Hx; reflexivity].
Qed.

Lemma filter_and : forall (A : Type) (f g : A -> bool) (l : list A),
  filter (fun x => f x && g x) l = filter g (filter f l).
Proof.
  induction l as [|x l IH]; [reflexivity|].
  cbn [filter]. destruct (f x); cbn [andb filter]; rewrite IH; reflexivity.
Qed.

(** C3: for every list of access events and every period whose events
    obey the life cycle of the data model, the completed events of the
    period (exit_datetime not null) and its cancelled events (state =
    cancelled) together are at most the events of the period: in a report,
    where they are total_accesses and total_absences, and in the statistics
    of each room, where they are completed_accesses and
    cancelled_accesses. *)
Theorem C3_completed_plus_cancelled_bounded : forall w from to,
  (forall a, In a (db_access w) -> inPeriod from to a = true -> lifeCycle a) ->
  let events := filter (inPeriod from to) (db_access w) in
  detailedReport.total_accesses (reportFor from to w)
  + detailedReport.total_absences (reportFor from to w)
  <= Z.of_nat (List.length events)
  /\ (forall r,
        roomStat.completed_accesses (roomStats1 events r)
        + roomStat.cancelled_accesses (roomStats1 events r)
        <= Z.of_nat (List.length (roomAccesses events r)))
  /\ detailedReport.total_accesses (reportFor from to w)
     = Z.of_nat
         (List.length
            (filter (fun a => typeorm.NotIsNull (access.exit_datetime a)) events))
  /\ detailedReport.total_absences (reportFor from to w)
     = Z.of_nat
         (List.length
            (filter (fun a => String.eqb (access.state a) "cancelled") events))
  /\ (forall r,
        roomStat.completed_accesses (roomStats1 events r)
        = Z.of_nat
            (List.length
               (filter (fun a => typeorm.NotIsNull (access.exit_datetime a))
                  (roomAccesses events r)))
        /\ roomStat.cancelled_accesses (roomStats1 events r)
           = Z.of_nat
               (List.length
                  (filter (fun a => String.eqb (access.state a) "cancelled")
                     (roomAccesses events r)))).
Proof.
  intros w from to Hwf events.
  assert (Hlife : forall a, In a events -> lifeCycle a).
  { intros a Ha. apply filter_In in Ha. exact (Hwf a (proj1 Ha) (proj2 Ha)). }
  assert (Hdisj : forall l, (forall a, In a l -> In a events) ->
    (List.length (filter (fun a => typeorm.NotIsNull (access.exit_datetime a)) l)
     + List.length (filter (fun a => String.eqb (access.state a) "cancelled") l)
     <= List.length l)%nat).
  { intros l Hl. apply filter_length_disjoint.
    intros a Ha Hexit Hstate. apply String.eqb_eq in Hstate.
    rewrite (Hlife a (Hl a Ha) Hstate) in Hexit. discriminate Hexit. }
  assert (Htotal : detailedReport.total_accesses (reportFor from to w)
     = Z.of_nat
         (List.length
            (filter (fun a => typeorm.NotIsNull (access.exit_datetime a)) events))).
  { unfold reportFor, detailedReportOf. cbn [detailedReport.total_accesses].
    unfold whereCompleted. rewrite filter_and. reflexivity. }
  assert (Habsent : detailedReport.total_absences (reportFor from to w)
     = Z.of_nat
         (List.length
            (filter (fun a => String.eqb (access.state a) "cancelled") events))).
  { unfold reportFor, detailedReportOf. cbn [detailedReport.total_absences].
    unfold whereCancelled. rewrite filter_and. reflexivity. }
  assert (Hroom : forall r,
        roomStat.completed_accesses (roomStats1 events r)
        = Z.of_nat
            (List.length
               (filter (fun a => typeorm.NotIsNull (access.exit_datetime a))
                  (roomAccesses events r)))
        /\ roomStat.cancelled_accesses (roomStats1 events r)
           = Z.of_nat
               (List.length
                  (filter (fun a => String.eqb (access.state a) "cancelled")
                     (roomAccesses events r)))).
  { intros r. destruct (roomStats1_fields events r) as (Hc & Hx & _ & _).
    split; [exact Hc | exact Hx]. }
  split; [|split; [|split; [exact Htotal | split; [exact Habsent | exact Hroom]]]].
  - rewrite Htotal, Habsent. pose proof (Hdisj events (fun a Ha => Ha)). lia.
  - intros r. destruct (Hroom r) as [Hc Hx]. rewrite Hc, Hx.
    assert (Hsub : forall a, In a (roomAccesses events r) -> In a events).
    { intros a Ha. unfold roomAccesses in Ha. apply filter_In in Ha. exact (proj1 Ha). }
    pose proof (Hdisj (roomAccesses events r) Hsub). lia.
Qed.

(** The bound rests on the life cycle: the two filters are independent, and
    one event that is cancelled and has an exit_datetime is one completed
    and one cancelled event, of one event in the period. *)
Example cancelled_after_exit_counts_twice :
  detailedReport.total_accesses
    (reportFor Sample.day (Sample.day + 86399999)
       (Sample.world [Sample.cancelledAfterExit Sample.ana Sample.lab])) = 1
  /\ detailedReport.total_absences
       (reportFor Sample.day (Sample.day + 86399999)
          (Sample.world [Sample.cancelledAfterExit Sample.ana Sample.lab])) = 1
  /\ List.length
       (filter (inPeriod Sample.day (Sample.day + 86399999))
          (db_access (Sample.world [Sample.cancelledAfterExit Sample.ana Sample.lab])))
     = 1%nat.
Proof. vm_compute. repeat split; reflexivity. Qed.

(** C4, as amended: a room's total_hours_used is the sum T of the
    durations of its accesses with an exit, rounded to two decimals; its
    average_duration is T divided by completed_accesses, rounded to two
    decimals, when completed_accesses > 0, and 0 otherwise.  The average
    is taken from the unrounded sum. *)
Theorem C4_average_from_unrounded_total : forall accesses r,
  let stat := roomStats1 accesses r in
  let T := fst (fold_left addDuration (completedAccesses (roomAccesses accesses r))
                  (zero, zero)) in
  roomStat.total_hours_used stat = parseFloat (toFixed2 T)
  /\ roomStat.average_duration stat
     = if 0 <? roomStat.completed_accesses stat
       then parseFloat (toFixed2 (T / Z_to_float (roomStat.completed_accesses stat))%float)
       else zero.
Proof.
  intros accesses r stat T.
  destruct (roomStats1_fields accesses r) as (Hc & _ & Hh & Ha).
  fold stat in Hc, Hh, Ha. fold T in Hh, Ha.
  split; [exact Hh|].
  rewrite Ha, Hc. unfold averageDuration.
  destruct (0 <? Z.of_nat _); [reflexivity|].
  vm_compute. reflexivity.
Qed.

(** C4 as stated fails: for two stays of 10.8 seconds the reported total
    is 0.01 and the reported average is 0, which is neither 0.01 / 2 nor
    0.01 / 2 rounded to two decimals. *)
Lemma C4_average_is_not_rounded_total_over_count :
  roomStat.completed_accesses (roomStats1 Sample.twoShortVisits Sample.lab) = 2
  /\ roomStat.total_hours_used (roomStats1 Sample.twoShortVisits Sample.lab)
     = parseFloat (TextDecimal false 1)
  /\ roomStat.average_duration (roomStats1 Sample.twoShortVisits Sample.lab) = zero
  /\ (roomStat.average_duration (roomStats1 Sample.twoShortVisits Sample.lab)
      =? roomStat.total_hours_used (roomStats1 Sample.twoShortVisits Sample.lab)
         / Z_to_float
             (roomStat.completed_accesses (roomStats1 Sample.twoShortVisits Sample.lab)))%float
     = false
  /\ (roomStat.average_duration (roomStats1 Sample.twoShortVisits Sample.lab)
      =? parseFloat
           (toFixed2
              (roomStat.total_hours_used (roomStats1 Sample.twoShortVisits Sample.lab)
               / Z_to_float
                   (roomStat.completed_accesses
                      (roomStats1 Sample.twoShortVisits Sample.lab)))))%float
     = false.
Proof. vm_compute. repeat split; reflexivity. Qed.

End RoomUsageClaims.

(** ** Store calls and the report pipeline *)

Section StoreCalls.

Lemma storeCall_threw : forall (A : Type) c (run : World -> A * World) w e rest,
  pending w = Some e :: rest ->
  storeCall c run w = (Threw e, called c w).
Proof. intros A c run w e rest H. unfold storeCall. rewrite H. reflexivity. Qed.

Lemma storeCall_returned : forall (A : Type) c (run : World -> A * World) w,
  hd None (pending w) = None ->
  storeCall c run w = (Returned (fst (run (called c w))), snd (run (called c w))).
Proof.
  intros A c run w H. unfold storeCall.
  destruct (pending w) as [|[e|] rest]; cbn in H; try discriminate H;
    destruct (run (called c w)); reflexivity.
Qed.

(** Either the four store calls succeed, the response is 201 with the
    report and one snapshot row is appended; or one of them throws and the
    snapshot table is as it was. *)
Lemma generateReport_outcome : forall from to report_date msg w,
  (fst (generateReport from to report_date msg w)
     = Returned (ok 201 msg (reportFor from to w))
   /\ db_administration (snd (generateReport from to report_date msg w))
      = (db_administration w ++ [newReportOf report_date (reportFor from to w)])%list
   /\ log (snd (generateReport from to report_date msg w))
      = (log w ++ [access_find; access_find; access_getRawMany; administration_save])%list)
  \/ (exists e, fst (generateReport from to report_date msg w) = Threw e
      /\ In (Some e) (pending w)
      /\ db_administration (snd (generateReport from to report_date msg w))
         = db_administration w).
Proof.
  intros from to report_date msg w.
  unfold generateReport, await, bind, typeorm.access_find_where,
    typeorm.access_getRawMany_countByPerson, typeorm.administration_save_new,
    ret, reportFor, storeCall.
  destruct (pending w) as [|[e1|] [|[e2|] [|[e3|] [|[e4|] rest]]]] eqn:Hp;
    repeat (cbn [pending called tl]; rewrite Hp);
    cbn [pending called tl fst snd db_administration db_access log];
    try (left; rewrite <- ?app_assoc; repeat split; reflexivity);
    right; eexists; (split; [reflexivity|]); (split; [|reflexivity]);
    cbn [In]; tauto.
Qed.






End StoreCalls.

(** ** Ordering and grouping in the store *)

Section OrderBy.

Context {A : Type} (key : A -> Z).

Lemma insertDesc_perm : forall x l, Permutation (x :: l) (typeorm.insertDesc key x l).
Proof.
  intros x l. induction l as [|y l IH]; cbn [typeorm.insertDesc].
  - apply Permutation_refl.
  - destruct (key y <=? key x).
    + apply Permutation_refl.
    + apply perm_trans with (y :: x :: l); [apply perm_swap|].
      apply perm_skip. exact IH.
Qed.

Lemma orderByDesc_perm : forall l, Permutation l (typeorm.orderByDesc key l).
Proof.
  induction l as [|x l IH]; cbn; [apply perm_nil|].
  apply perm_trans with (x :: typeorm.orderByDesc key l).
  - apply perm_skip. exact IH.
  - apply insertDesc_perm.
Qed.

Lemma insertDesc_sorted : forall x l,
  StronglySorted (descending key) l -> StronglySorted (descending key) (typeorm.insertDesc key x l).
Proof.
  intros x l Hs. induction Hs as [|y l Hs IH Hy]; cbn [typeorm.insertDesc].
  - constructor; [constructor | constructor].
  - destruct (key y <=? key x) eqn:Hyx.
    + apply Z.leb_le in Hyx.
      constructor; [constructor; assumption|].
      constructor; [exact Hyx|].
      apply Forall_impl with (P := descending key y); [|exact Hy].
      intros z Hz. unfold descending in *. lia.
    + apply Z.leb_gt in Hyx.
      constructor; [exact IH|].
      apply Forall_forall. intros z Hz.
      apply (Permutation_in z (Permutation_sym (insertDesc_perm x l))) in Hz.
      destruct Hz as [<-|Hz].
      * unfold descending. lia.
      * exact (proj1 (Forall_forall _ _) Hy z Hz).
Qed.

Lemma orderByDesc_sorted : forall l, StronglySorted (descending key) (typeorm.orderByDesc key l).
Proof.
  induction l as [|x l IH]; cbn; [constructor|].
  apply insertDesc_sorted. exact IH.
Qed.

End OrderBy.

Section Lists.

Context {A : Type}.

Lemma StronglySorted_filter : forall (R : A -> A -> Prop) (p : A -> bool) l,
  StronglySorted R l -> StronglySorted R (filter p l).
Proof.
  intros R p l Hs. induction Hs as [|x l Hs IH Hx]; cbn [filter]; [constructor|].
  destruct (p x); [|exact IH].
  constructor; [exact IH|].
  apply Forall_forall. intros y Hy. apply filter_In in Hy.
  exact (proj1 (Forall_forall _ _) Hx y (proj1 Hy)).
Qed.

Lemma StronglySorted_map : forall (B : Type) (f : A -> B) (R : A -> A -> Prop)
  (S : B -> B -> Prop) l,
  (forall x y, In x l -> In y l -> R x y -> S (f x) (f y)) ->
  StronglySorted R l -> StronglySorted S (map f l).
Proof.
  intros B f R S l HRS Hs. induction Hs as [|x l Hs IH Hx]; cbn [map]; [constructor|].
  constructor.
  - apply IH. intros a b Ha Hb. apply HRS; right; assumption.
  - apply Forall_forall. intros y Hy. apply in_map_iff in Hy.
    destruct Hy as (z & <- & Hz).
    apply HRS; [left; reflexivity | right; exact Hz|].
    exact (proj1 (Forall_forall _ _) Hx z Hz).
Qed.

(** A key that occurs, in a list whose keys are distinct, selects exactly
    one element. *)
Lemma filter_unique : forall (K : Type) (f : A -> K) (eqb : K -> K -> bool),
  (forall a b, eqb a b = true <-> a = b) ->
  forall k l, NoDup (map f l) -> In k (map f l) ->
  List.length (filter (fun x => eqb k (f x)) l) = 1%nat.
Proof.
  intros K f eqb Heqb k l. induction l as [|x l IH]; intros Hnd Hin; [destruct Hin|].
  cbn [map] in Hnd, Hin. inversion Hnd as [|? ? Hx Hnd']; subst.
  cbn [filter]. destruct (eqb k (f x)) eqn:Hk.
  - apply Heqb in Hk. subst k. cbn [List.length]. f_equal.
    assert (Hnone : forall l', ~ In (f x) (map f l') ->
              filter (fun y => eqb (f x) (f y)) l' = []).
    { induction l' as [|y l' IH']; intros Hnot; [reflexivity|].
      cbn [filter]. destruct (eqb (f x) (f y)) eqn:Hxy.
      - apply Heqb in Hxy. exfalso. apply Hnot. left. symmetry. exact Hxy.
      - apply IH'. intros H. apply Hnot. right. exact H. }
    rewrite (Hnone l Hx). reflexivity.
  - apply IH; [exact Hnd'|].
    destruct Hin as [Hin|Hin]; [|exact Hin].
    exfalso. subst k. assert (eqb (f x) (f x) = true) by (apply Heqb; reflexivity).
    congruence.
Qed.

(** Two complementary filters split what a third one selects. *)
Lemma filter_split_length : forall (p q sel : A -> bool) l,
  (forall x, In x l -> p x = negb (q x)) ->
  (List.length (filter sel (filter p l)) + List.length (filter sel (filter q l))
   = List.length (filter sel l))%nat.
Proof.
  intros p q sel l. induction l as [|x l IH]; intros H; [reflexivity|].
  assert (IH' := IH (fun y Hy => H y (or_intror Hy))).
  pose proof (H x (or_introl eq_refl)) as Hx.
  cbn [filter]. destruct (q x); cbn [negb] in Hx; rewrite Hx;
    cbn [filter]; destruct (sel x); cbn [List.length]; lia.
Qed.

End Lists.

Section Grouping.

Import typeorm.

Lemma groupKey_eqb_eq : forall k k', groupKey_eqb k k' = true <-> k = k'.
Proof.
  intros [[i n] s] [[i' n'] s']. unfold groupKey_eqb.
  rewrite !andb_true_iff, Z.eqb_eq, !String.eqb_eq.
  split; [intros [[-> ->] ->]; reflexivity | intros [= -> -> ->]; auto].
Qed.

Lemma groupKey_eqb_refl : forall k, groupKey_eqb k k = true.
Proof. intros k. apply groupKey_eqb_eq. reflexivity. Qed.

Lemma countInto_keys : forall k groups k',
  In k' (map fst (countInto k groups)) <-> k' = k \/ In k' (map fst groups).
Proof.
  intros k groups k'. induction groups as [|[k0 n] groups IH]; cbn [countInto map fst In].
  - intuition congruence.
  - destruct (groupKey_eqb k k0) eqn:Hk; cbn [map fst In].
    + apply groupKey_eqb_eq in Hk. subst k0. intuition congruence.
    + rewrite IH. tauto.
Qed.

Lemma countInto_NoDup : forall k groups,
  NoDup (map fst groups) -> NoDup (map fst (countInto k groups)).
Proof.
  intros k groups. induction groups as [|[k0 n] groups IH]; cbn [countInto map fst]; intros Hnd.
  - constructor; [intros []|constructor].
  - inversion Hnd as [|? ? Hk0 Hnd']; subst.
    destruct (groupKey_eqb k k0) eqn:Hk; cbn [map fst].
    + constructor; assumption.
    + constructor; [|apply IH; exact Hnd'].
      rewrite countInto_keys. intros [->|Hin]; [|exact (Hk0 Hin)].
      rewrite groupKey_eqb_refl in Hk. discriminate Hk.
Qed.

Lemma countInto_tally : forall k groups k',
  tally k' (countInto k groups)
  = (tally k' groups + if groupKey_eqb k' k then 1 else 0)%nat.
Proof.
  intros k groups k'. unfold tally.
  induction groups as [|[k0 n] groups IH]; cbn [countInto find fst snd].
  - destruct (groupKey_eqb k' k); reflexivity.
  - destruct (groupKey_eqb k k0) eqn:Hk; cbn [find fst snd].
    + apply groupKey_eqb_eq in Hk. subst k0.
      destruct (groupKey_eqb k' k); cbn [snd]; lia.
    + destruct (groupKey_eqb k' k0) eqn:Hk'; cbn [snd]; [|exact IH].
      apply groupKey_eqb_eq in Hk'. subst k0.
      destruct (groupKey_eqb k' k) eqn:Hkk; [|lia].
      apply groupKey_eqb_eq in Hkk. subst k'.
      rewrite groupKey_eqb_refl in Hk. discriminate Hk.
Qed.

Lemma countInto_positive : forall k groups,
  Forall (fun g => (0 < snd g)%nat) groups ->
  Forall (fun g => (0 < snd g)%nat) (countInto k groups).
Proof.
  intros k groups H. induction H as [|[k0 n] groups Hn H IH]; cbn [countInto].
  - constructor; [cbn; lia | constructor].
  - destruct (groupKey_eqb k k0); constructor; cbn [snd] in *; try lia; assumption.
Qed.

(** The fold behind [groupCount], from any table of groups. *)
Lemma groupCount_from : forall keys groups,
  NoDup (map fst groups) ->
  Forall (fun g => (0 < snd g)%nat) groups ->
  let out := fold_left (fun gs k => countInto k gs) keys groups in
  NoDup (map fst out)
  /\ Forall (fun g => (0 < snd g)%nat) out
  /\ (forall k, In k (map fst out) <-> In k keys \/ In k (map fst groups))
  /\ (forall k, tally k out = (tally k groups + rowsOf k keys)%nat).
Proof.
  induction keys as [|k0 keys IH]; intros groups Hnd Hpos; cbn [fold_left].
  - split; [exact Hnd|]. split; [exact Hpos|]. split.
    + intros k. cbn [In]. tauto.
    + intros k. unfold rowsOf. cbn. lia.
  - destruct (IH (countInto k0 groups) (countInto_NoDup k0 groups Hnd)
                (countInto_positive k0 groups Hpos)) as (H1 & H2 & H3 & H4).
    split; [exact H1|]. split; [exact H2|]. split.
    + intros k. rewrite H3, countInto_keys. cbn [In]. intuition congruence.
    + intros k. rewrite H4, countInto_tally. unfold rowsOf. cbn [filter].
      destruct (groupKey_eqb k k0); cbn [List.length]; lia.
Qed.

Lemma groupCount_spec : forall keys,
  NoDup (map fst (groupCount keys))
  /\ (forall k, In k (map fst (groupCount keys)) <-> In k keys)
  /\ (forall k, tally k (groupCount keys) = rowsOf k keys).
Proof.
  intros keys. unfold groupCount.
  destruct (groupCount_from keys [] (NoDup_nil _) (Forall_nil _)) as (H1 & _ & H3 & H4).
  split; [exact H1|]. split.
  - intros k. rewrite H3. cbn [map In]. tauto.
  - intros k. rewrite H4. reflexivity.
Qed.

(** With distinct keys, the group found for a key is the one listed. *)
Lemma tally_In : forall groups k n,
  NoDup (map fst groups) -> In (k, n) groups -> tally k groups = n.
Proof.
  intros groups k n. unfold tally.
  induction groups as [|[k0 n0] groups IH]; intros Hnd Hin; [destruct Hin|].
  cbn [map fst] in Hnd. inversion Hnd as [|? ? Hk0 Hnd']; subst.
  cbn [find fst]. destruct Hin as [[= -> ->]|Hin].
  - rewrite groupKey_eqb_refl. reflexivity.
  - destruct (groupKey_eqb k k0) eqn:Hk; [|apply IH; assumption].
    apply groupKey_eqb_eq in Hk. subst k0. exfalso. apply Hk0.
    apply in_map_iff. exists (k, n). split; [reflexivity|exact Hin].
Qed.

End Grouping.

(** ** [parseInt] reads back a rendered count *)

Section ParseCount.

(** A byte of the ASCII range that is not white space starts the trimmed
    text. *)
Lemma trimStart_keeps : forall c s,
  Z.of_nat (nat_of_ascii c) < 128 ->
  isStrWhiteSpaceChar [c] = false ->
  trimStart (String c s) = String c s.
Proof.
  intros c s Hc Hw. cbn [trimStart]. rewrite Hw.
  assert (H194 : (Z.of_nat (nat_of_ascii c) =? 194) = false) by (apply Z.eqb_neq; lia).
  assert (H225 : (Z.of_nat (nat_of_ascii c) =? 225) = false) by (apply Z.eqb_neq; lia).
  assert (H226 : (Z.of_nat (nat_of_ascii c) =? 226) = false) by (apply Z.eqb_neq; lia).
  assert (H227 : (Z.of_nat (nat_of_ascii c) =? 227) = false) by (apply Z.eqb_neq; lia).
  assert (H239 : (Z.of_nat (nat_of_ascii c) =? 239) = false) by (apply Z.eqb_neq; lia).
  destruct s as [|c2 [|c3 s3]]; unfold isStrWhiteSpaceChar; cbn [map];
    rewrite ?H194, ?H225, ?H226, ?H227, ?H239; reflexivity.
Qed.

Lemma parseInt_uint : forall d,
  parseInt (NilEmpty.string_of_uint d)
  = option_map (Z.mul 1) (parseDigits 10 None (NilEmpty.string_of_uint d)).
Proof.
  intros d. destruct d as [|d|d|d|d|d|d|d|d|d|d]; try reflexivity;
    cbn [NilEmpty.string_of_uint]; unfold parseInt;
    rewrite trimStart_keeps by (vm_compute; reflexivity);
    try reflexivity; destruct d; reflexivity.
Qed.

Lemma parseDigits_digit : forall c v s acc,
  digitValue c = Some v -> (v <? 10) = true ->
  parseDigits 10 acc (String c s)
  = parseDigits 10 (Some (10 * match acc with Some a => a | None => 0 end + v)) s.
Proof. intros c v s acc Hc Hv. cbn [parseDigits]. rewrite Hc, Hv. reflexivity. Qed.

Ltac digit_value :=
  match goal with
  | |- context [Z.of_nat (nat_of_ascii ?c) - 48] =>
      let v := eval vm_compute in (Z.of_nat (nat_of_ascii c) - 48) in
      change (Z.of_nat (nat_of_ascii c) - 48) with v
  end.

Lemma parseDigits_uint_acc : forall d acc,
  0 <= acc ->
  parseDigits 10 (Some acc) (NilEmpty.string_of_uint d)
  = Some (Z.of_nat (Nat.of_uint_acc d (Z.to_nat acc))).
Proof.
  induction d as [|d IH|d IH|d IH|d IH|d IH|d IH|d IH|d IH|d IH|d IH];
    intros acc Hacc; cbn [NilEmpty.string_of_uint Nat.of_uint_acc];
    [ cbn [parseDigits]; rewrite Z2Nat.id by exact Hacc; reflexivity | .. ];
    erewrite parseDigits_digit by reflexivity; cbv beta iota; digit_value;
    rewrite IH by lia; do 3 f_equal;
    rewrite Nat.tail_mul_spec; lia.
Qed.

Lemma parseDigits_uint : forall d,
  d <> Decimal.Nil ->
  parseDigits 10 None (NilEmpty.string_of_uint d) = Some (Z.of_nat (Nat.of_uint d)).
Proof.
  intros d Hd. unfold Nat.of_uint.
  destruct d as [|d|d|d|d|d|d|d|d|d|d]; [destruct Hd; reflexivity | ..];
    cbn [NilEmpty.string_of_uint Nat.of_uint_acc];
    erewrite parseDigits_digit by reflexivity; cbv beta iota; digit_value;
    rewrite parseDigits_uint_acc by lia; reflexivity.
Qed.

Lemma to_uint_nonnil : forall n, Nat.to_uint n <> Decimal.Nil.
Proof.
  intros n. rewrite <- (DecimalNat.Unsigned.of_to n) at 1.
  rewrite DecimalNat.Unsigned.to_of. apply DecimalFacts.unorm_nonnil.
Qed.

Theorem parseInt_decimal : forall n, parseInt (decimal n) = Some (Z.of_nat n).
Proof.
  intros n. unfold decimal.
  rewrite parseInt_uint, (parseDigits_uint _ (to_uint_nonnil n)).
  rewrite DecimalNat.Unsigned.of_to. cbn [option_map].
  f_equal. destruct (Z.of_nat n); reflexivity.
Qed.

End ParseCount.

(** ** Frequency cohorts *)

Section Cohorts.

Import typeorm.

Lemma rowKey_rawRow : forall g, rowKey (rawRow g) = fst g.
Proof. intros [[[i n] s] c]. reflexivity. Qed.

Lemma accessCount_rawRow : forall g, rawUser.accessCount (rawRow g) = decimal (snd g).
Proof. intros [[[i n] s] c]. reflexivity. Qed.

(** The keys of the completed accesses of a period. *)
Lemma countByPerson_eq : forall from to rows,
  countByPerson from to rows
  = map rawRow
      (orderByDesc (fun g => Z.of_nat (snd g))
         (groupCount (completedKeys from to rows))).
Proof. reflexivity. Qed.

(** Every row of the grouped query is the group of a person with a
    completed access, with that person's count; persons are listed once. *)
Lemma countByPerson_rows : forall from to rows,
  let users := countByPerson from to rows in
  NoDup (map rowKey users)
  /\ (forall k, In k (map rowKey users) <-> In k (completedKeys from to rows))
  /\ (forall u, In u users ->
        rawUser.accessCount u
        = decimal (rowsOf (rowKey u) (completedKeys from to rows)))
  /\ StronglySorted countDescending users.
Proof.
  intros from to rows users. subst users. rewrite countByPerson_eq.
  set (keys := completedKeys from to rows).
  set (sorted := orderByDesc (fun g => Z.of_nat (snd g)) (groupCount keys)).
  destruct (groupCount_spec keys) as (Hnd & Hin & Htally).
  assert (Hperm : Permutation (groupCount keys) sorted)
    by apply orderByDesc_perm.
  assert (Hkeys : map rowKey (map rawRow sorted) = map fst sorted).
  { rewrite map_map. apply map_ext. exact rowKey_rawRow. }
  assert (Hnd' : NoDup (map fst sorted)).
  { apply (Permutation_NoDup (Permutation_map fst Hperm)). exact Hnd. }
  split; [rewrite Hkeys; exact Hnd'|]. split; [|split].
  - intros k. rewrite Hkeys, <- Hin. split; intros H.
    + exact (Permutation_in k (Permutation_sym (Permutation_map fst Hperm)) H).
    + exact (Permutation_in k (Permutation_map fst Hperm) H).
  - intros u Hu. apply in_map_iff in Hu. destruct Hu as ([k n] & <- & Hg).
    rewrite accessCount_rawRow, rowKey_rawRow. cbn [fst snd]. f_equal.
    rewrite <- Htally. symmetry. apply tally_In; [exact Hnd|].
    exact (Permutation_in _ (Permutation_sym Hperm) Hg).
  - apply StronglySorted_map
      with (R := descending (fun g : GroupKey * nat => Z.of_nat (snd g))).
    + intros x y _ _ Hxy. unfold countDescending.
      rewrite !accessCount_rawRow, !parseInt_decimal.
      exists (Z.of_nat (snd x)), (Z.of_nat (snd y)). auto.
    + apply orderByDesc_sorted.
Qed.

Lemma cohorts_complementary : forall from to rows u,
  In u (countByPerson from to rows) ->
  gt (parseInt (rawUser.accessCount u)) 3 = negb (le (parseInt (rawUser.accessCount u)) 3).
Proof.
  intros from to rows u Hu.
  destruct (countByPerson_rows from to rows) as (_ & _ & Hcount & _).
  rewrite (Hcount u Hu), parseInt_decimal. cbn [gt le].
  destruct (Z.ltb_spec 3 (Z.of_nat (rowsOf (rowKey u) (completedKeys from to rows))));
    destruct (Z.leb_spec (Z.of_nat (rowsOf (rowKey u) (completedKeys from to rows))) 3);
    try reflexivity; lia.
Qed.

(** C2: every person with at least one completed access in the period has
    exactly one row in the two cohorts taken together; that row carries the
    person's number of completed accesses and is in the frequent cohort
    exactly when this number exceeds 3; and each cohort is sorted by access
    count, descending. *)
Theorem C2_cohort_partition : forall rows from to a,
  In a rows ->
  whereCompleted from to a = true ->
  let users := countByPerson from to rows in
  let k := groupKey a in
  let n := rowsOf k (completedKeys from to rows) in
  (List.length (filter (hasKey k) (frequentUsers users))
   + List.length (filter (hasKey k) (infrequentUsers users)) = 1)%nat
  /\ (forall u, In u users -> rowKey u = k ->
        rawUser.accessCount u = decimal n
        /\ (In u (frequentUsers users) <-> 3 < Z.of_nat n)
        /\ (In u (infrequentUsers users) <-> Z.of_nat n <= 3))
  /\ StronglySorted countDescending (frequentUsers users)
  /\ StronglySorted countDescending (infrequentUsers users).
Proof.
  intros rows from to a Ha Hdone users k n.
  destruct (countByPerson_rows from to rows) as (Hnd & Hin & Hcount & Hsorted).
  fold users in Hnd, Hin, Hcount, Hsorted.
  assert (Hk : In k (map rowKey users)).
  { apply Hin. unfold completedKeys. apply in_map. apply filter_In. auto. }
  split; [|split; [|split]].
  - unfold frequentUsers, infrequentUsers.
    rewrite filter_split_length.
    + unfold hasKey. apply filter_unique; [exact groupKey_eqb_eq | exact Hnd | exact Hk].
    + intros u Hu. exact (cohorts_complementary from to rows u Hu).
  - intros u Hu <-. fold n. split; [exact (Hcount u Hu)|].
    unfold frequentUsers, infrequentUsers. rewrite !filter_In.
    rewrite (Hcount u Hu), parseInt_decimal. cbn [gt le].
    rewrite Z.ltb_lt, Z.leb_le. tauto.
  - apply StronglySorted_filter. exact Hsorted.
  - apply StronglySorted_filter. exact Hsorted.
Qed.

End Cohorts.

(** ** The handlers *)

Section Handlers.

Variable host : Host.




Lemma generateDailyReport_eq : forall req w,
  generateDailyReport host req w
  = tryCatch
      (generateReport (startOfMonth host (madridWallClock host (clock w)))
         (endOfToday host (madridWallClock host (clock w)))
         (madridWallClock host (clock w))
         "Daily report generated and saved successfully")
      (fun error => failureWith 500 "Error generating daily report" (toJSON error)) w.
Proof. reflexivity. Qed.








Lemma falsy_QString : forall s, s <> EmptyString -> falsy (QString s) = false.
Proof. intros [|c s] H; [destruct H|]; reflexivity. Qed.

(** C7: in each date-parameterised handler, a start_date or end_date that
    is absent (or empty), or that does not parse as a date, is answered
    with status 400 and success = false, and the store is not queried.
    When both are non-empty strings, the message is
    "Invalid date format. Use YYYY-MM-DD" (in getRoomAccessHistories,
    provided the room id itself is a number). *)
Theorem C7_missing_or_unparsable_date_is_rejected : forall req w,
  falsy (start_date (query req)) = true
  \/ falsy (end_date (query req)) = true
  \/ newDate host (start_date (query req)) = None
  \/ newDate host (end_date (query req)) = None ->
  rejected 400 (getAccessHistories host req w) w
  /\ rejected 400 (getRoomAccessHistories host req w) w
  /\ rejected 400 (getDateReport host req w) w
  /\ (forall s1 s2,
        start_date (query req) = QString s1 -> end_date (query req) = QString s2 ->
        s1 <> EmptyString -> s2 <> EmptyString ->
        message (fst (getAccessHistories host req w))
          = "Invalid date format. Use YYYY-MM-DD"
        /\ message (fst (getDateReport host req w))
          = "Invalid date format. Use YYYY-MM-DD"
        /\ (parseInt (room_id (params req)) <> None ->
            message (fst (getRoomAccessHistories host req w))
              = "Invalid date format. Use YYYY-MM-DD")).
Proof.
  intros req w Hbad.
  assert (Hcases :
    falsy (start_date (query req)) || falsy (end_date (query req)) = true
    \/ (falsy (start_date (query req)) || falsy (end_date (query req)) = false
        /\ (newDate host (start_date (query req)) = None
            \/ newDate host (end_date (query req)) = None))).
  { destruct (falsy (start_date (query req))), (falsy (end_date (query req)));
      cbn; try (left; reflexivity).
    right. split; [reflexivity|].
    destruct Hbad as [H|[H|[H|H]]]; try discriminate H; [left|right]; exact H. }
  unfold rejected, getAccessHistories, getAccessHistories_body,
    getRoomAccessHistories, getRoomAccessHistories_body,
    getDateReport, getDateReport_body, tryCatch, ret.
  destruct Hcases as [Hf | [Hf Hd]]; rewrite !Hf; cbn [orb].
  - split; [|split; [|split]].
    + repeat split; reflexivity.
    + destruct (parseInt (room_id (params req))); repeat split; reflexivity.
    + repeat split; reflexivity.
    + intros s1 s2 E1 E2 N1 N2. rewrite E1, E2 in Hf.
      rewrite (falsy_QString s1 N1), (falsy_QString s2 N2) in Hf. discriminate Hf.
  - split; [|split; [|split]].
    + destruct (notString (start_date (query req)) || notString (end_date (query req)));
        [repeat split; reflexivity|].
      destruct Hd as [-> | ->]; [repeat split; reflexivity|].
      destruct (newDate host (start_date (query req))); repeat split; reflexivity.
    + destruct (parseInt (room_id (params req))); [|repeat split; reflexivity].
      destruct (notString (start_date (query req)) || notString (end_date (query req)));
        [repeat split; reflexivity|].
      destruct Hd as [-> | ->]; [repeat split; reflexivity|].
      destruct (newDate host (start_date (query req))); repeat split; reflexivity.
    + destruct Hd as [-> | ->]; [repeat split; reflexivity|].
      destruct (newDate host (start_date (query req))); repeat split; reflexivity.
    + intros s1 s2 E1 E2 N1 N2. rewrite E1, E2 in *. cbn [notString orb].
      split; [|split].
      * destruct Hd as [-> | ->]; [reflexivity|].
        destruct (newDate host (QString s1)); reflexivity.
      * destruct Hd as [-> | ->]; [reflexivity|].
        destruct (newDate host (QString s1)); reflexivity.
      * intros Hroom.
        destruct (parseInt (room_id (params req))); [|destruct Hroom; reflexivity].
        destruct Hd as [-> | ->]; [reflexivity|].
        destruct (newDate host (QString s1)); reflexivity.
Qed.

Lemma validDateParam_inv : forall v,
  validDateParam host v = true ->
  falsy v = false /\ notString v = false /\ exists t, newDate host v = Some t.
Proof.
  intros v H. unfold validDateParam in H.
  destruct (falsy v), (notString v), (newDate host v) as [t|]; try discriminate H.
  repeat split. exists t. reflexivity.
Qed.

Lemma find_room_none : forall rooms n,
  (forall r, In r rooms -> room.id r <> n) ->
  find (fun r => room.id r =? n) rooms = None.
Proof.
  intros rooms n H. destruct (find _ rooms) as [r|] eqn:Hfind; [|reflexivity].
  apply find_some in Hfind. destruct Hfind as [Hin Heq].
  apply Z.eqb_eq in Heq. destruct (H r Hin Heq).
Qed.

(** C8: with valid date parameters and a room id that is a number but the
    id of no stored room, getRoomAccessHistories answers 404 with
    success = false and message "Room not found"; the only store call it
    makes is the room lookup, so the access histories are not queried. *)
Theorem C8_unknown_room_is_404 : forall req w n,
  parseInt (room_id (params req)) = Some n ->
  validDateParam host (start_date (query req)) = true ->
  validDateParam host (end_date (query req)) = true ->
  (forall r, In r (db_room w) -> room.id r <> n) ->
  hd None (pending w) = None ->
  status (fst (getRoomAccessHistories host req w)) = 404
  /\ success (fst (getRoomAccessHistories host req w)) = false
  /\ message (fst (getRoomAccessHistories host req w)) = "Room not found"
  /\ log (snd (getRoomAccessHistories host req w)) = log w ++ [room_findOne].
Proof.
  intros req w n Hroom Hs He Hnone Hcalm.
  apply validDateParam_inv in Hs. destruct Hs as (Hs1 & Hs2 & t1 & Hs3).
  apply validDateParam_inv in He. destruct He as (He1 & He2 & t2 & He3).
  unfold getRoomAccessHistories, getRoomAccessHistories_body, tryCatch.
  rewrite Hroom, Hs1, He1, Hs2, He2, Hs3, He3. cbn [orb].
  unfold bind, await, typeorm.room_findOne_by_id.
  rewrite storeCall_returned by exact Hcalm.
  cbn [fst snd called db_room]. rewrite (find_room_none _ _ Hnone).
  repeat split; reflexivity.
Qed.

(** C9, what the code does: when its first store call throws an [Error],
    each of the five handlers answers 500 with success = false; the error's
    message is in the body only in getAccessHistories and
    getRoomAccessHistories.  The three administration handlers put the error
    object itself in the body, where it is serialised to its own enumerable
    properties: the message is not among them. *)
Theorem C9_thrown_error_in_the_response : forall req w message enumerable rest,
  pending w = Some (ErrorInstance message enumerable) :: rest ->
  fst (generateDailyReport host req w)
    = failureWith 500 "Error generating daily report" (JsonObject enumerable)
  /\ fst (getRoomUsageStats host req w)
    = failureWith 500 "Error retrieving room usage statistics" (JsonObject enumerable)
  /\ (validDateParam host (start_date (query req)) = true ->
      validDateParam host (end_date (query req)) = true ->
      fst (getDateReport host req w)
        = failureWith 500 "Error generating custom report" (JsonObject enumerable)
      /\ fst (getAccessHistories host req w)
        = failureWith 500 "An error occurred while fetching access histories"
            (JsonString message)
      /\ (parseInt (room_id (params req)) <> None ->
          fst (getRoomAccessHistories host req w)
            = failureWith 500 "Error getting room access histories"
                (JsonString message))).
Proof.
  intros req w message enumerable rest Hp.
  split; [|split].
  - rewrite generateDailyReport_eq.
    unfold tryCatch, generateReport, bind, await, typeorm.access_find_where.
    rewrite (storeCall_threw _ _ _ _ _ _ Hp). reflexivity.
  - unfold getRoomUsageStats, getRoomUsageStats_body, tryCatch, bind, await, Date_now,
      typeorm.access_find_where.
    rewrite (storeCall_threw _ _ _ _ _ _ Hp). reflexivity.
  - intros Hs He.
    apply validDateParam_inv in Hs. destruct Hs as (Hs1 & Hs2 & t1 & Hs3).
    apply validDateParam_inv in He. destruct He as (He1 & He2 & t2 & He3).
    split; [|split].
    + unfold getDateReport, getDateReport_body, tryCatch.
      rewrite Hs1, He1, Hs3, He3. cbn [orb option_map].
      unfold generateReport, bind, await, typeorm.access_find_where.
      rewrite (storeCall_threw _ _ _ _ _ _ Hp). reflexivity.
    + unfold getAccessHistories, getAccessHistories_body, tryCatch.
      rewrite Hs1, He1, Hs2, He2, Hs3, He3. cbn [orb].
      unfold bind, await, typeorm.accessHistory_find_desc.
      rewrite (storeCall_threw _ _ _ _ _ _ Hp). reflexivity.
    + intros Hroom.
      unfold getRoomAccessHistories, getRoomAccessHistories_body, tryCatch.
      destruct (parseInt (room_id (params req))) as [n|]; [|destruct Hroom; reflexivity].
      rewrite Hs1, He1, Hs2, He2, Hs3, He3. cbn [orb].
      unfold bind, await, typeorm.room_findOne_by_id.
      rewrite (storeCall_threw _ _ _ _ _ _ Hp). reflexivity.
Qed.

Lemma formatted_descending : forall rows,
  StronglySorted (descending formattedHistory.entry_datetime)
    (map formatHistory (typeorm.orderByDesc accessHistory.entry_datetime rows)).
Proof.
  intros rows.
  apply StronglySorted_map with (R := descending accessHistory.entry_datetime).
  - intros x y _ _ H. exact H.
  - apply orderByDesc_sorted.
Qed.

(** C10: whenever getAccessHistories or getRoomAccessHistories returns
    access histories, they are ordered by entry_datetime, most recent
    first. *)
Theorem C10_histories_most_recent_first : forall req w,
  match data (fst (getAccessHistories host req w)) with
  | Some histories =>
      StronglySorted (descending formattedHistory.entry_datetime) histories
  | None => True
  end
  /\ match data (fst (getRoomAccessHistories host req w)) with
     | Some found =>
         StronglySorted (descending formattedHistory.entry_datetime)
           (roomHistories.access_histories found)
     | None => True
     end.
Proof.
  intros req w. split.
  - unfold getAccessHistories, getAccessHistories_body, tryCatch.
    destruct (_ || _); [exact I|].
    destruct (newDate host (start_date (query req))) as [t1|]; [|exact I].
    destruct (newDate host (end_date (query req))) as [t2|]; [|exact I].
    unfold bind, await, typeorm.accessHistory_find_desc, storeCall.
    destruct (pending w) as [|[e|] rest]; cbn [fst data ok failureWith ret];
      try exact I; apply formatted_descending.
  - unfold getRoomAccessHistories, getRoomAccessHistories_body, tryCatch.
    destruct (parseInt (room_id (params req))) as [n|]; [|exact I].
    destruct (_ || _); [exact I|].
    destruct (newDate host (start_date (query req))) as [t1|]; [|exact I].
    destruct (newDate host (end_date (query req))) as [t2|]; [|exact I].
    unfold bind, await, typeorm.room_findOne_by_id, typeorm.accessHistory_find_desc,
      storeCall.
    destruct (find (fun r => room.id r =? n) (db_room w)) as [found|] eqn:Hfind;
      destruct (pending w) as [|[e|] [|[e'|] rest]] eqn:Hp;
      repeat (cbn [pending called tl db_room]; rewrite ?Hp, ?Hfind);
      cbn [pending called tl fst snd data ok failure failureWith ret
             roomHistories.access_histories];
      try exact I; apply formatted_descending.
Qed.

End Handlers.

(** ** The theorems at work on the sample data *)

Section Worked.

Lemma C2_cohort_partition_witness :
  (List.length
     (filter (hasKey (typeorm.groupKey (Sample.completedVisit Sample.ana Sample.lab)))
        (frequentUsers
           (typeorm.countByPerson Sample.day (Sample.day + 86399999)
              (Sample.completedVisit Sample.ana Sample.lab :: Sample.busyDay))))
   + List.length
       (filter (hasKey (typeorm.groupKey (Sample.completedVisit Sample.ana Sample.lab)))
          (infrequentUsers
             (typeorm.countByPerson Sample.day (Sample.day + 86399999)
                (Sample.completedVisit Sample.ana Sample.lab :: Sample.busyDay))))
   = 1)%nat.
Proof.
  exact (proj1 (C2_cohort_partition
                  (Sample.completedVisit Sample.ana Sample.lab :: Sample.busyDay)
                  Sample.day (Sample.day + 86399999)
                  (Sample.completedVisit Sample.ana Sample.lab)
                  (or_introl eq_refl) eq_refl)).
Defined.

(** The cohorts of that day: Ana, with five completed accesses, is
    frequent; Luis, with one, is infrequent. *)
Example cohorts_of_busyDay :
  map userSummaryOf
    (frequentUsers
       (typeorm.countByPerson Sample.day (Sample.day + 86399999)
          (Sample.completedVisit Sample.ana Sample.lab :: Sample.busyDay)))
  = [{| userSummary.name := "Ana Ruiz"; userSummary.accessCount := Some 5 |}]
  /\ map userSummaryOf
       (infrequentUsers
          (typeorm.countByPerson Sample.day (Sample.day + 86399999)
             (Sample.completedVisit Sample.ana Sample.lab :: Sample.busyDay)))
     = [{| userSummary.name := "Luis Vidal"; userSummary.accessCount := Some 1 |}].
Proof. split; vm_compute; reflexivity. Qed.

Lemma C3_completed_plus_cancelled_bounded_witness :
  detailedReport.total_accesses
    (reportFor Sample.day (Sample.day + 86399999) (Sample.world Sample.busyDay))
  + detailedReport.total_absences
      (reportFor Sample.day (Sample.day + 86399999) (Sample.world Sample.busyDay))
  <= Z.of_nat
       (List.length
          (filter (inPeriod Sample.day (Sample.day + 86399999))
             (db_access (Sample.world Sample.busyDay)))).
Proof.
  refine (proj1 (C3_completed_plus_cancelled_bounded (Sample.world Sample.busyDay)
                   Sample.day (Sample.day + 86399999) _)).
  intros a Ha _ Hstate. cbn [Sample.world db_access Sample.busyDay In] in Ha.
  repeat (destruct Ha as [<- | Ha]; [first [reflexivity | discriminate Hstate]|]).
  destruct Ha.
Defined.


Lemma C7_missing_or_unparsable_date_is_rejected_witness :
  rejected 400 (getAccessHistories UTC.host Sample.notADate (Sample.world Sample.busyDay))
    (Sample.world Sample.busyDay)
  /\ rejected 400
       (getRoomAccessHistories UTC.host Sample.notADate (Sample.world Sample.busyDay))
       (Sample.world Sample.busyDay)
  /\ rejected 400 (getDateReport UTC.host Sample.notADate (Sample.world Sample.busyDay))
       (Sample.world Sample.busyDay)
  /\ message (fst (getAccessHistories UTC.host Sample.notADate
                     (Sample.world Sample.busyDay)))
     = "Invalid date format. Use YYYY-MM-DD"
  /\ message (fst (getDateReport UTC.host Sample.notADate (Sample.world Sample.busyDay)))
     = "Invalid date format. Use YYYY-MM-DD"
  /\ message (fst (getRoomAccessHistories UTC.host Sample.notADate
                     (Sample.world Sample.busyDay)))
     = "Invalid date format. Use YYYY-MM-DD".
Proof.
  destruct (C7_missing_or_unparsable_date_is_rejected UTC.host Sample.notADate
              (Sample.world Sample.busyDay))
    as (H1 & H2 & H3 & H4).
  - right. right. left. reflexivity.
  - destruct (H4 "not-a-date" "2024-03-31" eq_refl eq_refl) as (M1 & M2 & M3);
      try discriminate.
    refine (conj H1 (conj H2 (conj H3 (conj M1 (conj M2 (M3 _)))))).
    discriminate.
Defined.

Lemma C8_unknown_room_is_404_witness :
  status (fst (getRoomAccessHistories UTC.host Sample.unknownRoom
                 (Sample.world Sample.busyDay))) = 404
  /\ success (fst (getRoomAccessHistories UTC.host Sample.unknownRoom
                     (Sample.world Sample.busyDay))) = false
  /\ message (fst (getRoomAccessHistories UTC.host Sample.unknownRoom
                     (Sample.world Sample.busyDay))) = "Room not found"
  /\ log (snd (getRoomAccessHistories UTC.host Sample.unknownRoom
                 (Sample.world Sample.busyDay)))
     = log (Sample.world Sample.busyDay) ++ [room_findOne].
Proof.
  refine (C8_unknown_room_is_404 UTC.host Sample.unknownRoom
            (Sample.world Sample.busyDay) 7 eq_refl eq_refl eq_refl _ eq_refl).
  intros r [<- | [<- | []]]; discriminate.
Defined.

Lemma C9_thrown_error_in_the_response_witness :
  fst (generateDailyReport UTC.host Sample.march (Sample.refusing Sample.busyDay))
    = failureWith 500 "Error generating daily report"
        (JsonObject [("code", "ECONNREFUSED"); ("syscall", "connect")])
  /\ fst (getRoomUsageStats UTC.host Sample.march (Sample.refusing Sample.busyDay))
     = failureWith 500 "Error retrieving room usage statistics"
         (JsonObject [("code", "ECONNREFUSED"); ("syscall", "connect")])
  /\ fst (getDateReport UTC.host Sample.march (Sample.refusing Sample.busyDay))
     = failureWith 500 "Error generating custom report"
         (JsonObject [("code", "ECONNREFUSED"); ("syscall", "connect")])
  /\ fst (getAccessHistories UTC.host Sample.march (Sample.refusing Sample.busyDay))
     = failureWith 500 "An error occurred while fetching access histories"
         (JsonString "connect ECONNREFUSED 127.0.0.1:3306").
Proof.
  destruct (C9_thrown_error_in_the_response UTC.host Sample.march
              (Sample.refusing Sample.busyDay)
              "connect ECONNREFUSED 127.0.0.1:3306"
              [("code", "ECONNREFUSED"); ("syscall", "connect")] [] eq_refl)
    as (H1 & H2 & H3).
  destruct (H3 eq_refl eq_refl) as (H4 & H5 & _).
  repeat split; assumption.
Defined.

(** A custom report for March on the sample day: 201, five accesses, one
    absence, and one snapshot row dated 2024-03-01. *)
Example getDateReport_march :
  status (fst (getDateReport UTC.host Sample.march (Sample.world Sample.busyDay))) = 201
  /\ option_map detailedReport.total_accesses
       (data (fst (getDateReport UTC.host Sample.march (Sample.world Sample.busyDay))))
     = Some 5
  /\ option_map detailedReport.total_absences
       (data (fst (getDateReport UTC.host Sample.march (Sample.world Sample.busyDay))))
     = Some 1
  /\ map administration.report_date
       (db_administration
          (snd (getDateReport UTC.host Sample.march (Sample.world Sample.busyDay))))
     = [1709251200000].
Proof. vm_compute. repeat split; reflexivity. Qed.

(** Asked twice, it leaves two rows. *)
Example getDateReport_march_twice :
  List.length
    (db_administration
       (snd (getDateReport UTC.host Sample.march
               (snd (getDateReport UTC.host Sample.march (Sample.world Sample.busyDay))))))
  = 2%nat.
Proof. vm_compute. reflexivity. Qed.

(** The daily report of the sample day is saved too. *)
Example generateDailyReport_sample :
  status (fst (generateDailyReport UTC.host Sample.march (Sample.world Sample.busyDay)))
    = 201
  /\ List.length
       (db_administration
          (snd (generateDailyReport UTC.host Sample.march (Sample.world Sample.busyDay))))
     = 1%nat.
Proof. vm_compute. split; reflexivity. Qed.

(** The histories stored at 09:00, 12:00 and 10:00 come back as 12:00,
    10:00, 09:00. *)
Example getAccessHistories_march :
  option_map (map formattedHistory.id)
    (data (fst (getAccessHistories UTC.host Sample.march (Sample.world []))))
  = Some [2; 3; 1].
Proof. vm_compute. reflexivity. Qed.

Example getRoomAccessHistories_march :
  option_map (fun found => map formattedHistory.id (roomHistories.access_histories found))
    (data (fst (getRoomAccessHistories UTC.host Sample.march (Sample.world []))))
  = Some [3; 1].
Proof. vm_compute. reflexivity. Qed.

(** The whole usage response for the worked example of two events. *)
Example getRoomUsageStats_worked_example :
  option_map usageResponse.room_stats
    (data (fst (getRoomUsageStats UTC.host Sample.march
                  (Sample.world [Sample.completedVisit Sample.ana Sample.lab;
                                 Sample.cancelledBooking Sample.luis Sample.lab]))))
  = Some [{| roomStat.room_id := 1; roomStat.room_name := "Lab";
             roomStat.total_accesses := 1; roomStat.completed_accesses := 1;
             roomStat.cancelled_accesses := 1; roomStat.total_hours_used := 1.5;
             roomStat.average_duration := 1.5 |};
          {| roomStat.room_id := 2; roomStat.room_name := "Hall";
             roomStat.total_accesses := 0; roomStat.completed_accesses := 0;
             roomStat.cancelled_accesses := 0; roomStat.total_hours_used := 0;
             roomStat.average_duration := 0 |}].
Proof. vm_compute. reflexivity. Qed.

End Worked.

(** * Further properties of the handlers *)

Section HandlerRuns.

Variable host : Host.

(** A valid request to getAccessHistories whose query does not throw. *)
Lemma getAccessHistories_ok : forall req w t1 t2,
  validDateParam host (start_date (query req)) = true ->
  validDateParam host (end_date (query req)) = true ->
  newDate host (start_date (query req)) = Some t1 ->
  newDate host (end_date (query req)) = Some t2 ->
  hd None (pending w) = None ->
  getAccessHistories host req w
  = (ok 200 "Access histories retrieved successfully"
       (map formatHistory
          (typeorm.orderByDesc accessHistory.entry_datetime
             (filter (fun h => typeorm.Between t1 (setHours host t2 23 59 59 999)
                                 (accessHistory.entry_datetime h))
                (db_accessHistory w)))),
     called accessHistory_find w).
Proof.
  intros req w t1 t2 Hs He Hs3 He3 Hcalm.
  apply validDateParam_inv in Hs. destruct Hs as (Hs1 & Hs2 & _).
  apply validDateParam_inv in He. destruct He as (He1 & He2 & _).
  unfold getAccessHistories, getAccessHistories_body, tryCatch.
  rewrite Hs1, He1, Hs2, He2, Hs3, He3. cbn [orb].
  unfold bind, await, typeorm.accessHistory_find_desc.
  rewrite storeCall_returned by exact Hcalm. reflexivity.
Qed.

(** X3: with valid date parameters and a query that does not throw,
    getAccessHistories answers 200 with exactly the stored histories whose
    entry_datetime lies between the start date and 23:59:59.999 of the end
    date, both ends included, each once; its only store call is that
    query. *)
Theorem X3_getAccessHistories_returns_the_period : forall req w t1 t2,
  validDateParam host (start_date (query req)) = true ->
  validDateParam host (end_date (query req)) = true ->
  newDate host (start_date (query req)) = Some t1 ->
  newDate host (end_date (query req)) = Some t2 ->
  hd None (pending w) = None ->
  status (fst (getAccessHistories host req w)) = 200
  /\ success (fst (getAccessHistories host req w)) = true
  /\ (exists histories,
        data (fst (getAccessHistories host req w)) = Some histories
        /\ Permutation
             (map formatHistory
                (filter (fun h => (t1 <=? accessHistory.entry_datetime h)
                                  && (accessHistory.entry_datetime h
                                      <=? setHours host t2 23 59 59 999))
                   (db_accessHistory w)))
             histories)
  /\ log (snd (getAccessHistories host req w)) = log w ++ [accessHistory_find].
Proof.
  intros req w t1 t2 Hs He Hs3 He3 Hcalm.
  rewrite (getAccessHistories_ok req w t1 t2 Hs He Hs3 He3 Hcalm).
  cbn [fst snd status success data ok log called].
  repeat split. eexists. split; [reflexivity|].
  apply Permutation_map. apply orderByDesc_perm.
Qed.

(** A valid request to getRoomAccessHistories for a stored room, when
    neither store call throws. *)
Lemma getRoomAccessHistories_ok : forall req w n t1 t2 found,
  parseInt (room_id (params req)) = Some n ->
  validDateParam host (start_date (query req)) = true ->
  validDateParam host (end_date (query req)) = true ->
  newDate host (start_date (query req)) = Some t1 ->
  newDate host (end_date (query req)) = Some t2 ->
  find (fun r => room.id r =? n) (db_room w) = Some found ->
  hd None (pending w) = None ->
  hd None (tl (pending w)) = None ->
  getRoomAccessHistories host req w
  = (ok 200 "Room access histories retrieved successfully"
       {| roomHistories.room_id := n;
          roomHistories.room_name := room.room_name found;
          roomHistories.access_histories :=
            map formatHistory
              (typeorm.orderByDesc accessHistory.entry_datetime
                 (filter (fun h => (accessHistory.room_id h =? n)
                                   && typeorm.Between t1 (setHours host t2 23 59 59 999)
                                        (accessHistory.entry_datetime h))
                    (db_accessHistory w))) |},
     called accessHistory_find (called room_findOne w)).
Proof.
  intros req w n t1 t2 found Hroom Hs He Hs3 He3 Hfind Hcalm1 Hcalm2.
  apply validDateParam_inv in Hs. destruct Hs as (Hs1 & Hs2 & _).
  apply validDateParam_inv in He. destruct He as (He1 & He2 & _).
  unfold getRoomAccessHistories, getRoomAccessHistories_body, tryCatch.
  rewrite Hroom, Hs1, He1, Hs2, He2, Hs3, He3. cbn [orb].
  unfold bind, await, typeorm.room_findOne_by_id, typeorm.accessHistory_find_desc.
  rewrite storeCall_returned by exact Hcalm1.
  cbn [fst snd called db_room]. rewrite Hfind.
  rewrite storeCall_returned by exact Hcalm2. reflexivity.
Qed.

(** X4: with valid date parameters and the id of a stored room,
    getRoomAccessHistories, when neither store call throws, answers 200
    with the id asked for, the name of the first stored room of that id, and
    exactly the stored histories of that room_id whose entry_datetime lies in
    the period, each once; it looks the room up before it queries the
    histories. *)
Theorem X4_getRoomAccessHistories_returns_the_room : forall req w n t1 t2 found,
  parseInt (room_id (params req)) = Some n ->
  validDateParam host (start_date (query req)) = true ->
  validDateParam host (end_date (query req)) = true ->
  newDate host (start_date (query req)) = Some t1 ->
  newDate host (end_date (query req)) = Some t2 ->
  find (fun r => room.id r =? n) (db_room w) = Some found ->
  hd None (pending w) = None ->
  hd None (tl (pending w)) = None ->
  status (fst (getRoomAccessHistories host req w)) = 200
  /\ (exists d,
        data (fst (getRoomAccessHistories host req w)) = Some d
        /\ roomHistories.room_id d = n
        /\ room.id found = n
        /\ roomHistories.room_name d = room.room_name found
        /\ Permutation
             (map formatHistory
                (filter (fun h => (accessHistory.room_id h =? n)
                                  && ((t1 <=? accessHistory.entry_datetime h)
                                      && (accessHistory.entry_datetime h
                                          <=? setHours host t2 23 59 59 999)))
                   (db_accessHistory w)))
             (roomHistories.access_histories d))
  /\ log (snd (getRoomAccessHistories host req w))
     = log w ++ [room_findOne; accessHistory_find].
Proof.
  intros req w n t1 t2 found Hroom Hs He Hs3 He3 Hfind Hcalm1 Hcalm2.
  rewrite (getRoomAccessHistories_ok req w n t1 t2 found
             Hroom Hs He Hs3 He3 Hfind Hcalm1 Hcalm2).
  cbn [fst snd status data ok log called].
  split; [reflexivity|]. split.
  - eexists. split; [reflexivity|].
    cbn [roomHistories.room_id roomHistories.room_name roomHistories.access_histories].
    split; [reflexivity|]. split.
    + apply find_some in Hfind. apply Z.eqb_eq. exact (proj2 Hfind).
    + split; [reflexivity|]. apply Permutation_map. apply orderByDesc_perm.
  - rewrite <- app_assoc. reflexivity.
Qed.

(** X2: a start_date or end_date that is present but not a string (a
    repeated or bracketed query key) is answered by getAccessHistories, and
    by getRoomAccessHistories once the room id is a number, with 400 and
    "Start date and end date are required", even when its text would parse
    as a date; the store is not asked anything. *)
Theorem X2_non_string_dates_are_rejected : forall req w,
  notString (start_date (query req)) = true
  \/ notString (end_date (query req)) = true ->
  rejected 400 (getAccessHistories host req w) w
  /\ message (fst (getAccessHistories host req w))
     = "Start date and end date are required"
  /\ (parseInt (room_id (params req)) <> None ->
      rejected 400 (getRoomAccessHistories host req w) w
      /\ message (fst (getRoomAccessHistories host req w))
         = "Start date and end date are required").
Proof.
  intros req w Hns.
  assert (Hguard : falsy (start_date (query req)) || falsy (end_date (query req))
                   || notString (start_date (query req))
                   || notString (end_date (query req)) = true).
  { destruct Hns as [-> | ->]; rewrite ?orb_true_r; reflexivity. }
  unfold rejected, getAccessHistories, getAccessHistories_body,
    getRoomAccessHistories, getRoomAccessHistories_body, tryCatch.
  rewrite Hguard. split; [repeat split; reflexivity|]. split; [reflexivity|].
  intros Hroom. destruct (parseInt (room_id (params req))); [|destruct Hroom; reflexivity].
  repeat split; reflexivity.
Qed.

End HandlerRuns.

Section HandlerInvariants.

Variable host : Host.

(** Split on everything a handler body branches on before its store calls. *)
Ltac split_guards :=
  repeat match goal with
    | |- context [match parseInt ?s with _ => _ end] => destruct (parseInt s)
    | |- context [if ?b then _ else _] => destruct b
    | |- context [match newDate ?h ?v with _ => _ end] => destruct (newDate h v)
    | |- context [match option_map ?f ?o with _ => _ end] => destruct (option_map f o)
    | |- context [match find ?f ?l with _ => _ end] => destruct (find f l)
    end.

(** Split on the outcomes of the first four store calls of [w]. *)
Ltac split_calls w Hp :=
  destruct (pending w) as [|[?|] [|[?|] [|[?|] [|[?|] ?]]]] eqn:Hp;
  repeat (cbn [pending called tl db_room]; rewrite Hp).

(** The same for handlers that make at most two store calls. *)
Ltac split_calls2 w Hp :=
  destruct (pending w) as [|[?|] [|[?|] ?]] eqn:Hp;
  repeat (cbn [pending called tl db_room]; rewrite Hp).

Ltac solve_sameTables := unfold sameTables; cbn; repeat split; reflexivity.

Ltac solve_issued :=
  first [ exists 0%nat; cbn; rewrite app_nil_r; reflexivity
        | exists 1%nat; cbn; rewrite <- ?app_assoc; reflexivity
        | exists 2%nat; cbn; rewrite <- ?app_assoc; reflexivity
        | exists 3%nat; cbn; rewrite <- ?app_assoc; reflexivity
        | exists 4%nat; cbn; rewrite <- ?app_assoc; reflexivity ].

Ltac solve_fields := repeat split; first [reflexivity | discriminate].

Ltac solve_envelope :=
  unfold envelope; cbn;
  first [ left; split; [first [left; reflexivity | right; reflexivity] | solve_fields]
        | right; left; split; [first [left; reflexivity | right; reflexivity] | solve_fields]
        | right; right; solve_fields ].

Lemma getAccessHistories_run : forall req w,
  sameTables w (snd (getAccessHistories host req w))
  /\ issued [accessHistory_find] w (snd (getAccessHistories host req w))
  /\ envelope (fst (getAccessHistories host req w))
  /\ (status (fst (getAccessHistories host req w)) = 200
      \/ status (fst (getAccessHistories host req w)) = 400
      \/ status (fst (getAccessHistories host req w)) = 500).
Proof.
  intros req w.
  unfold getAccessHistories, getAccessHistories_body, tryCatch, bind, await, ret,
    typeorm.accessHistory_find_desc, storeCall.
  split_guards; try (split_calls2 w Hp); cbn [fst snd];
    (split; [solve_sameTables|]); (split; [solve_issued|]);
    (split; [solve_envelope|]); cbn; auto.
Qed.

Lemma getRoomAccessHistories_run : forall req w,
  sameTables w (snd (getRoomAccessHistories host req w))
  /\ issued [room_findOne; accessHistory_find] w (snd (getRoomAccessHistories host req w))
  /\ envelope (fst (getRoomAccessHistories host req w))
  /\ (status (fst (getRoomAccessHistories host req w)) = 200
      \/ status (fst (getRoomAccessHistories host req w)) = 400
      \/ status (fst (getRoomAccessHistories host req w)) = 404
      \/ status (fst (getRoomAccessHistories host req w)) = 500).
Proof.
  intros req w.
  unfold getRoomAccessHistories, getRoomAccessHistories_body, tryCatch, bind, await, ret,
    typeorm.room_findOne_by_id, typeorm.accessHistory_find_desc, storeCall.
  split_guards; try (split_calls2 w Hp); split_guards;
    repeat (cbn [pending called tl db_room]; rewrite Hp); cbn [fst snd];
    (split; [solve_sameTables|]); (split; [solve_issued|]);
    (split; [solve_envelope|]); cbn; auto.
Qed.

Lemma getRoomUsageStats_run : forall req w,
  sameTables w (snd (getRoomUsageStats host req w))
  /\ issued [access_find; room_find] w (snd (getRoomUsageStats host req w))
  /\ envelope (fst (getRoomUsageStats host req w))
  /\ (status (fst (getRoomUsageStats host req w)) = 200
      \/ status (fst (getRoomUsageStats host req w)) = 500).
Proof.
  intros req w.
  unfold getRoomUsageStats, getRoomUsageStats_body, tryCatch, bind, await, ret, Date_now,
    typeorm.access_find_where, typeorm.room_find_all, storeCall.
  split_calls2 w Hp; cbn [fst snd];
    (split; [solve_sameTables|]); (split; [solve_issued|]);
    (split; [solve_envelope|]); cbn; auto.
Qed.

(** The report pipeline under its handler: what it leaves, what it asks of
    the store, what it answers. *)
Lemma generateReport_run : forall from to report_date msg failMsg w,
  let out :=
    tryCatch (generateReport from to report_date msg)
      (fun error => failureWith 500 failMsg (toJSON error)) w in
  (clock (snd out) = clock w
   /\ db_room (snd out) = db_room w
   /\ db_accessHistory (snd out) = db_accessHistory w
   /\ db_access (snd out) = db_access w)
  /\ (db_administration (snd out) = db_administration w
      \/ exists row, db_administration (snd out) = db_administration w ++ [row])
  /\ issued [access_find; access_find; access_getRawMany; administration_save] w (snd out)
  /\ envelope (fst out)
  /\ (status (fst out) = 201 \/ status (fst out) = 500).
Proof.
  intros from to report_date msg failMsg w out. subst out.
  unfold tryCatch, generateReport, bind, await, ret, typeorm.access_find_where,
    typeorm.access_getRawMany_countByPerson, typeorm.administration_save_new, storeCall.
  split_calls w Hp; cbn [fst snd];
    (split; [cbn; repeat split; reflexivity|]);
    (split; [cbn; first [left; reflexivity | right; eexists; reflexivity]|]);
    (split; [solve_issued|]);
    (split; [solve_envelope|]); cbn; auto.
Qed.

Lemma getDateReport_run : forall req w,
  (clock (snd (getDateReport host req w)) = clock w
   /\ db_room (snd (getDateReport host req w)) = db_room w
   /\ db_accessHistory (snd (getDateReport host req w)) = db_accessHistory w
   /\ db_access (snd (getDateReport host req w)) = db_access w)
  /\ (db_administration (snd (getDateReport host req w)) = db_administration w
      \/ exists row,
           db_administration (snd (getDateReport host req w))
           = db_administration w ++ [row])
  /\ issued [access_find; access_find; access_getRawMany; administration_save]
       w (snd (getDateReport host req w))
  /\ envelope (fst (getDateReport host req w))
  /\ (status (fst (getDateReport host req w)) = 201
      \/ status (fst (getDateReport host req w)) = 400
      \/ status (fst (getDateReport host req w)) = 500).
Proof.
  intros req w. unfold getDateReport, getDateReport_body.
  destruct (falsy (start_date (query req)) || falsy (end_date (query req)));
    [|destruct (newDate host (start_date (query req))) as [t1|];
      [destruct (option_map _ (newDate host (end_date (query req)))) as [t2|]|]].
  2: { destruct (generateReport_run t1 t2 t1
                  "Custom report generated and saved successfully"
                  "Error generating custom report" w) as (H1 & H2 & H3 & H4 & H5).
       split; [exact H1|]. split; [exact H2|]. split; [exact H3|].
       split; [exact H4|]. destruct H5 as [H5|H5]; auto. }
  all: unfold tryCatch, ret; cbn [fst snd];
    (split; [repeat split; reflexivity|]);
    (split; [left; reflexivity|]);
    (split; [solve_issued|]);
    (split; [solve_envelope|]); cbn; auto.
Qed.

Lemma generateDailyReport_run : forall req w,
  (clock (snd (generateDailyReport host req w)) = clock w
   /\ db_room (snd (generateDailyReport host req w)) = db_room w
   /\ db_accessHistory (snd (generateDailyReport host req w)) = db_accessHistory w
   /\ db_access (snd (generateDailyReport host req w)) = db_access w)
  /\ (db_administration (snd (generateDailyReport host req w)) = db_administration w
      \/ exists row,
           db_administration (snd (generateDailyReport host req w))
           = db_administration w ++ [row])
  /\ issued [access_find; access_find; access_getRawMany; administration_save]
       w (snd (generateDailyReport host req w))
  /\ envelope (fst (generateDailyReport host req w))
  /\ (status (fst (generateDailyReport host req w)) = 201
      \/ status (fst (generateDailyReport host req w)) = 500).
Proof.
  intros req w. rewrite generateDailyReport_eq. apply generateReport_run.
Qed.

(** X5: getAccessHistories, getRoomAccessHistories and getRoomUsageStats
    only read: whatever the request and whatever the store does, the four
    tables and the clock are afterwards what they were. *)
Theorem X5_read_handlers_write_nothing : forall req w,
  sameTables w (snd (getAccessHistories host req w))
  /\ sameTables w (snd (getRoomAccessHistories host req w))
  /\ sameTables w (snd (getRoomUsageStats host req w)).
Proof.
  intros req w. split; [|split].
  - apply getAccessHistories_run.
  - apply getRoomAccessHistories_run.
  - apply getRoomUsageStats_run.
Qed.

(** X6: generateDailyReport and getDateReport never touch the room, access
    history or access tables, and the only change they ever make to the
    snapshot table is to append one row; no row is removed or rewritten. *)
Theorem X6_reports_only_append_snapshots : forall req w,
  (db_room (snd (generateDailyReport host req w)) = db_room w
   /\ db_accessHistory (snd (generateDailyReport host req w)) = db_accessHistory w
   /\ db_access (snd (generateDailyReport host req w)) = db_access w
   /\ (db_administration (snd (generateDailyReport host req w)) = db_administration w
       \/ exists row,
            db_administration (snd (generateDailyReport host req w))
            = db_administration w ++ [row]))
  /\ (db_room (snd (getDateReport host req w)) = db_room w
      /\ db_accessHistory (snd (getDateReport host req w)) = db_accessHistory w
      /\ db_access (snd (getDateReport host req w)) = db_access w
      /\ (db_administration (snd (getDateReport host req w)) = db_administration w
          \/ exists row,
               db_administration (snd (getDateReport host req w))
               = db_administration w ++ [row])).
Proof.
  intros req w.
  destruct (generateDailyReport_run req w) as ((_ & A1 & A2 & A3) & A4 & _).
  destruct (getDateReport_run req w) as ((_ & B1 & B2 & B3) & B4 & _).
  repeat split; assumption.
Qed.

(** X7: every response has one of three shapes: a success (200 or 201) with
    data and no error field; a 400 or 404 with neither; a 500 with an error
    field and no data.  getAccessHistories answers 200, 400 or 500;
    getRoomAccessHistories 200, 400, 404 or 500; getDateReport 201, 400 or
    500; generateDailyReport 201 or 500 and getRoomUsageStats 200 or 500,
    since these two validate nothing. *)
Theorem X7_response_envelope : forall req w,
  (envelope (fst (getAccessHistories host req w))
   /\ (status (fst (getAccessHistories host req w)) = 200
       \/ status (fst (getAccessHistories host req w)) = 400
       \/ status (fst (getAccessHistories host req w)) = 500))
  /\ (envelope (fst (getRoomAccessHistories host req w))
      /\ (status (fst (getRoomAccessHistories host req w)) = 200
          \/ status (fst (getRoomAccessHistories host req w)) = 400
          \/ status (fst (getRoomAccessHistories host req w)) = 404
          \/ status (fst (getRoomAccessHistories host req w)) = 500))
  /\ (envelope (fst (getDateReport host req w))
      /\ (status (fst (getDateReport host req w)) = 201
          \/ status (fst (getDateReport host req w)) = 400
          \/ status (fst (getDateReport host req w)) = 500))
  /\ (envelope (fst (generateDailyReport host req w))
      /\ (status (fst (generateDailyReport host req w)) = 201
          \/ status (fst (generateDailyReport host req w)) = 500))
  /\ (envelope (fst (getRoomUsageStats host req w))
      /\ (status (fst (getRoomUsageStats host req w)) = 200
          \/ status (fst (getRoomUsageStats host req w)) = 500)).
Proof.
  intros req w.
  destruct (getAccessHistories_run req w) as (_ & _ & A1 & A2).
  destruct (getRoomAccessHistories_run req w) as (_ & _ & B1 & B2).
  destruct (getDateReport_run req w) as (_ & _ & _ & C1 & C2).
  destruct (generateDailyReport_run req w) as (_ & _ & _ & D1 & D2).
  destruct (getRoomUsageStats_run req w) as (_ & _ & E1 & E2).
  repeat split; assumption.
Qed.







(** Once a digit has been read, the digits read so far are a number. *)
Lemma parseDigits_read : forall R s a, parseDigits R (Some a) s <> None.
Proof.
  intros R s. induction s as [|c s IH]; intros a; cbn [parseDigits]; [discriminate|].
  destruct (digitValue c) as [d|]; [|discriminate].
  destruct (d <? R); [apply IH | discriminate].
Qed.

(** A text that starts with a digit from 1 to 9 is read as a number,
    whatever follows the digits. *)
Lemma parseInt_leading_digit : forall c rest,
  (49 <=? Z.of_nat (nat_of_ascii c)) && (Z.of_nat (nat_of_ascii c) <=? 57) = true ->
  parseInt (String c rest) <> None.
Proof.
  intros c rest Hc.
  assert (Htrim : trimStart (String c rest) = String c rest).
  { apply andb_true_iff in Hc. destruct Hc as [H1 H2].
    apply Z.leb_le in H1, H2.
    apply trimStart_keeps; [lia|].
    unfold isStrWhiteSpaceChar. cbn [map].
    destruct (Z.leb_spec 9 (Z.of_nat (nat_of_ascii c))),
      (Z.leb_spec (Z.of_nat (nat_of_ascii c)) 13),
      (Z.eqb_spec (Z.of_nat (nat_of_ascii c)) 32); cbn; try reflexivity; lia. }
  unfold parseInt. rewrite Htrim. clear Htrim.
  destruct c as [[] [] [] [] [] [] [] []]; try discriminate Hc;
    cbn [option_map parseDigits digitValue];
    match goal with
    | |- option_map _ ?o <> None =>
        let H := fresh in
        assert (H : o <> None) by (cbn; apply parseDigits_read);
        destruct o; [discriminate | destruct H; reflexivity]
    end.
Qed.

(** X1: getRoomAccessHistories answers "Invalid room ID" exactly for the
    room ids that parseInt does not read as a number.  Such an id is turned
    away first: with 400 and success = false, whatever the date parameters
    are, and the store is not asked anything.  An id parseInt reads is never
    answered so, and text after the number does not make an id invalid: an
    id that starts with a digit from 1 to 9 is accepted whatever follows. *)
Theorem X1_invalid_room_id_is_rejected_first : forall req w,
  (parseInt (room_id (params req)) = None ->
   rejected 400 (getRoomAccessHistories host req w) w
   /\ message (fst (getRoomAccessHistories host req w)) = "Invalid room ID")
  /\ (parseInt (room_id (params req)) <> None ->
      message (fst (getRoomAccessHistories host req w)) <> "Invalid room ID")
  /\ (forall c rest,
        room_id (params req) = String c rest ->
        (49 <=? Z.of_nat (nat_of_ascii c)) && (Z.of_nat (nat_of_ascii c) <=? 57) = true ->
        message (fst (getRoomAccessHistories host req w)) <> "Invalid room ID").
Proof.
  intros req w.
  assert (Hread : parseInt (room_id (params req)) <> None ->
                  message (fst (getRoomAccessHistories host req w)) <> "Invalid room ID").
  { intros Hroom.
    unfold getRoomAccessHistories, getRoomAccessHistories_body, tryCatch, bind, await, ret,
      typeorm.room_findOne_by_id, typeorm.accessHistory_find_desc, storeCall.
    destruct (parseInt (room_id (params req))) as [n|]; [|destruct Hroom; reflexivity].
    split_guards; try (split_calls2 w Hp); split_guards;
      repeat (cbn [pending called tl db_room]; rewrite Hp);
      cbn [fst snd message failure failureWith ok]; discriminate. }
  split; [|split; [exact Hread|]].
  - intros Hroom.
    unfold rejected, getRoomAccessHistories, getRoomAccessHistories_body, tryCatch.
    rewrite Hroom. repeat split; reflexivity.
  - intros c rest Hid Hc. apply Hread. rewrite Hid.
    apply parseInt_leading_digit. exact Hc.
Qed.

End HandlerInvariants.

(** ** Further properties of the room usage statistics *)

Section UsageTotals.

(** The identifying and counting fields of a room's statistics. *)
Lemma roomStats1_counts : forall accesses r,
  roomStat.room_id (roomStats1 accesses r) = room.id r
  /\ roomStat.room_name (roomStats1 accesses r) = room.room_name r
  /\ roomStat.total_accesses (roomStats1 accesses r)
     = Z.of_nat (List.length (roomAccesses accesses r))
       - Z.of_nat (List.length (cancelledAccesses (roomAccesses accesses r))).
Proof.
  intros accesses r. unfold roomStats1.
  destruct (fold_left addDuration _ (zero, zero)) as [h d].
  repeat split; reflexivity.
Qed.

Lemma filter_negb_length : forall (A : Type) (p : A -> bool) (l : list A),
  (List.length (filter p l) + List.length (filter (fun x => negb (p x)) l)
   = List.length l)%nat.
Proof.
  induction l as [|x l IH]; [reflexivity|].
  cbn [filter]. destruct (p x); cbn [negb List.length]; lia.
Qed.

(** X9: a room's total_accesses is the number of its events whose state is
    not 'cancelled', whether they have an exit or are still open; it is never
    negative, and together with cancelled_accesses it accounts for every
    event of the room. *)
Theorem X9_total_accesses_counts_the_uncancelled : forall accesses r,
  roomStat.total_accesses (roomStats1 accesses r)
  = Z.of_nat
      (List.length
         (filter (fun a => negb (String.eqb (access.state a) "cancelled"))
            (roomAccesses accesses r)))
  /\ 0 <= roomStat.total_accesses (roomStats1 accesses r)
  /\ roomStat.total_accesses (roomStats1 accesses r)
     + roomStat.cancelled_accesses (roomStats1 accesses r)
     = Z.of_nat (List.length (roomAccesses accesses r)).
Proof.
  intros accesses r.
  destruct (roomStats1_counts accesses r) as (_ & _ & Ht).
  destruct (roomStats1_fields accesses r) as (_ & Hx & _ & _).
  rewrite Ht, Hx. unfold cancelledAccesses.
  pose proof (filter_negb_length _
                (fun a => String.eqb (access.state a) "cancelled")
                (roomAccesses accesses r)) as H.
  cbv beta in H. repeat split; lia.
Qed.

Lemma roomAccesses_none : forall accesses r,
  (forall a, In a accesses -> room.id (access.room a) <> room.id r) ->
  roomAccesses accesses r = [].
Proof.
  intros accesses r H. unfold roomAccesses.
  induction accesses as [|a l IH]; [reflexivity|].
  cbn [filter].
  destruct (room.id (access.room a) =? room.id r) eqn:E.
  - apply Z.eqb_eq in E. destruct (H a (or_introl eq_refl) E).
  - apply IH. intros b Hb. apply H. right. exact Hb.
Qed.

(** X10: a room that none of the accesses refers to (in particular any room,
    when there are no accesses at all) gets a line of zeros: no accesses, no
    hours, and an average_duration of 0 rather than a division by zero. *)
Theorem X10_room_without_accesses : forall accesses r,
  (forall a, In a accesses -> room.id (access.room a) <> room.id r) ->
  roomStats1 accesses r
  = {| roomStat.room_id := room.id r; roomStat.room_name := room.room_name r;
       roomStat.total_accesses := 0; roomStat.completed_accesses := 0;
       roomStat.cancelled_accesses := 0; roomStat.total_hours_used := zero;
       roomStat.average_duration := zero |}.
Proof.
  intros accesses r H. unfold roomStats1.
  rewrite (roomAccesses_none accesses r H). reflexivity.
Qed.

(** A [reduce] that adds one field of each element. *)
Lemma fold_left_add : forall (A : Type) (f : A -> Z) (l : list A) (start : Z),
  fold_left (fun sum x => sum + f x) l start
  = start + fold_right (fun x sum => f x + sum) 0 l.
Proof.
  induction l as [|x l IH]; intros start; cbn [fold_left fold_right]; [lia|].
  rewrite IH. lia.
Qed.

(** Two filters that no element passes together split their union. *)
Lemma filter_or_disjoint : forall (A : Type) (p q : A -> bool) (l : list A),
  (forall x, In x l -> p x = true -> q x = true -> False) ->
  List.length (filter (fun x => p x || q x) l)
  = (List.length (filter p l) + List.length (filter q l))%nat.
Proof.
  induction l as [|x l IH]; intros Hdisj; [reflexivity|].
  assert (IH' := IH (fun y Hy => Hdisj y (or_intror Hy))).
  pose proof (Hdisj x (or_introl eq_refl)) as Hx.
  cbn [filter].
  destruct (p x), (q x); cbn [orb List.length];
    first [lia | exfalso; apply Hx; reflexivity].
Qed.

(** With distinct room ids, the accesses of the rooms add up to the
    accesses that are in some room. *)
Lemma roomAccesses_total : forall accesses rooms,
  NoDup (map room.id rooms) ->
  fold_right (fun r sum => Z.of_nat (List.length (roomAccesses accesses r)) + sum) 0 rooms
  = Z.of_nat (List.length (filter (inRooms rooms) accesses)).
Proof.
  intros accesses rooms. induction rooms as [|r rooms IH]; intros Hnd.
  - cbn [fold_right]. unfold inRooms. cbn [existsb].
    replace (filter (fun _ : access.t => false) accesses) with (@nil access.t);
      [reflexivity|].
    induction accesses as [|a l IHl]; [reflexivity | exact IHl].
  - cbn [map] in Hnd. inversion Hnd as [|? ? Hr Hnd']; subst.
    cbn [fold_right]. rewrite (IH Hnd').
    unfold inRooms at 2. cbn [existsb]. fold (inRooms rooms).
    rewrite (filter_or_disjoint _
               (fun a => room.id (access.room a) =? room.id r) (inRooms rooms)).
    + unfold roomAccesses. lia.
    + intros a _ Ha Hin. apply Z.eqb_eq in Ha.
      unfold inRooms in Hin. apply existsb_exists in Hin.
      destruct Hin as (r' & Hr' & E). apply Z.eqb_eq in E.
      apply Hr. rewrite <- Ha, E. apply in_map. exact Hr'.
Qed.

Lemma roomStats_totals : forall rooms accesses,
  fold_right (fun stat sum => roomStat.total_accesses stat + sum) 0
    (roomStats rooms accesses)
  + fold_right (fun stat sum => roomStat.cancelled_accesses stat + sum) 0
      (roomStats rooms accesses)
  = fold_right (fun r sum => Z.of_nat (List.length (roomAccesses accesses r)) + sum)
      0 rooms.
Proof.
  intros rooms accesses. unfold roomStats.
  induction rooms as [|r rooms IH]; [reflexivity|].
  cbn [map fold_right].
  destruct (roomStats1_counts accesses r) as (_ & _ & Ht).
  destruct (roomStats1_fields accesses r) as (_ & Hx & _ & _).
  rewrite Ht, Hx. lia.
Qed.

Variable host : Host.

Lemma getRoomUsageStats_ok : forall req w,
  hd None (pending w) = None ->
  hd None (tl (pending w)) = None ->
  exists d,
    getRoomUsageStats host req w
    = (ok 200
         "Room usage statistics from the beginning of the month to today retrieved successfully"
         d,
       called room_find (called access_find w))
    /\ usageResponse.days_in_period d = getDate host (clock w)
    /\ usageResponse.room_stats d
       = roomStats (db_room w)
           (filter (inPeriod (monthStart host (clock w)) (endOfToday host (clock w)))
              (db_access w))
    /\ usageResponse.total_accesses d
       = fold_left (fun sum stat => sum + roomStat.total_accesses stat)
           (usageResponse.room_stats d) 0
    /\ usageResponse.total_cancellations d
       = fold_left (fun sum stat => sum + roomStat.cancelled_accesses stat)
           (usageResponse.room_stats d) 0.
Proof.
  intros req w Hcalm1 Hcalm2.
  unfold getRoomUsageStats, getRoomUsageStats_body, tryCatch, bind, await, Date_now,
    typeorm.access_find_where, typeorm.room_find_all.
  rewrite storeCall_returned by exact Hcalm1. cbn [fst snd].
  rewrite storeCall_returned by exact Hcalm2. cbn [fst snd ret].
  eexists. split; [reflexivity|]. repeat split; reflexivity.
Qed.

(** X11: when neither of its queries throws, getRoomUsageStats answers 200
    with one line per stored room, in table order; and if the stored rooms
    have distinct ids, the response's total_accesses and total_cancellations
    together count exactly the accesses entered between the first of the
    month and the end of today whose room is a stored room: each once, and
    none of a room that is not stored. *)
Theorem X11_usage_totals_account_for_every_access : forall req w,
  hd None (pending w) = None ->
  hd None (tl (pending w)) = None ->
  NoDup (map room.id (db_room w)) ->
  status (fst (getRoomUsageStats host req w)) = 200
  /\ exists d,
       data (fst (getRoomUsageStats host req w)) = Some d
       /\ map roomStat.room_id (usageResponse.room_stats d) = map room.id (db_room w)
       /\ usageResponse.total_accesses d + usageResponse.total_cancellations d
          = Z.of_nat
              (List.length
                 (filter (fun a => inPeriod (monthStart host (clock w))
                                     (endOfToday host (clock w)) a
                                   && inRooms (db_room w) a)
                    (db_access w))).
Proof.
  intros req w Hcalm1 Hcalm2 Hnd.
  destruct (getRoomUsageStats_ok req w Hcalm1 Hcalm2) as (d & Hrun & _ & Hstats & Ht & Hc).
  rewrite Hrun. cbn [fst status data ok]. split; [reflexivity|].
  exists d. split; [reflexivity|]. split.
  - rewrite Hstats. unfold roomStats. rewrite map_map.
    apply map_ext. intros r. apply roomStats1_counts.
  - rewrite Ht, Hc, !fold_left_add, Hstats, !Z.add_0_l.
    rewrite roomStats_totals, (roomAccesses_total _ _ Hnd), filter_and. reflexivity.
Qed.

End UsageTotals.

(** ** Further properties of the reports *)

Section ReportContents.

Import typeorm.

Lemma countInto_sum : forall k groups,
  fold_right (fun g sum => Z.of_nat (snd g) + sum) 0 (countInto k groups)
  = 1 + fold_right (fun g sum => Z.of_nat (snd g) + sum) 0 groups.
Proof.
  intros k groups. induction groups as [|[k0 n] groups IH]; cbn [countInto fold_right snd].
  - lia.
  - destruct (groupKey_eqb k k0); cbn [fold_right snd]; lia.
Qed.

Lemma groupCount_sum : forall keys,
  fold_right (fun g sum => Z.of_nat (snd g) + sum) 0 (groupCount keys)
  = Z.of_nat (List.length keys).
Proof.
  intros keys. unfold groupCount.
  assert (H : forall groups,
    fold_right (fun g sum => Z.of_nat (snd g) + sum) 0
      (fold_left (fun gs k => countInto k gs) keys groups)
    = Z.of_nat (List.length keys)
      + fold_right (fun g sum => Z.of_nat (snd g) + sum) 0 groups).
  { induction keys as [|k keys IH]; intros groups; cbn [fold_left List.length]; [lia|].
    rewrite IH, countInto_sum. lia. }
  rewrite H. cbn [fold_right]. lia.
Qed.

Lemma sum_Permutation : forall (A : Type) (f : A -> Z) (l l' : list A),
  Permutation l l' ->
  fold_right (fun x sum => f x + sum) 0 l = fold_right (fun x sum => f x + sum) 0 l'.
Proof.
  intros A f l l' H. induction H; cbn [fold_right]; lia.
Qed.

Lemma countOf_rawRow : forall g, countOf (userSummaryOf (rawRow g)) = Z.of_nat (snd g).
Proof.
  intros g. unfold countOf, userSummaryOf. cbn [userSummary.accessCount].
  rewrite accessCount_rawRow, parseInt_decimal. reflexivity.
Qed.

Lemma countSum_split : forall (p q : rawUser.t -> bool) (l : list rawUser.t),
  (forall u, In u l -> p u = negb (q u)) ->
  countSum (map userSummaryOf (filter p l)) + countSum (map userSummaryOf (filter q l))
  = countSum (map userSummaryOf l).
Proof.
  intros p q l. unfold countSum. induction l as [|u l IH]; intros H; [reflexivity|].
  assert (IH' := IH (fun v Hv => H v (or_intror Hv))).
  pose proof (H u (or_introl eq_refl)) as Hu.
  cbn [filter]. destruct (q u); cbn [negb] in Hu; rewrite Hu;
    cbn [map fold_right]; lia.
Qed.

(** The counts of the two cohorts of a period add up to its completed
    accesses. *)
Lemma reportFor_countSum : forall from to w,
  countSum (detailedReport.frequent_users (reportFor from to w))
  + countSum (detailedReport.infrequent_users (reportFor from to w))
  = detailedReport.total_accesses (reportFor from to w).
Proof.
  intros from to w. unfold reportFor, detailedReportOf.
  cbn [detailedReport.frequent_users detailedReport.infrequent_users
       detailedReport.total_accesses].
  unfold frequentUsers, infrequentUsers.
  rewrite countSum_split
    by (intros u Hu; exact (cohorts_complementary from to (db_access w) u Hu)).
  rewrite countByPerson_eq. unfold countSum. rewrite map_map.
  assert (Hmap : forall l : list (GroupKey * nat),
    fold_right (fun u sum => countOf u + sum) 0
      (map (fun g => userSummaryOf (rawRow g)) l)
    = fold_right (fun g sum => Z.of_nat (snd g) + sum) 0 l).
  { induction l as [|g l IH]; [reflexivity|].
    cbn [map fold_right]. rewrite IH, countOf_rawRow. reflexivity. }
  rewrite Hmap.
  rewrite <- (sum_Permutation _ (fun g => Z.of_nat (snd g)) _ _
                (orderByDesc_perm (fun g => Z.of_nat (snd g))
                   (groupCount (completedKeys from to (db_access w))))).
  rewrite groupCount_sum. unfold completedKeys. rewrite length_map. reflexivity.
Qed.

Lemma rowsOf_positive : forall k keys, In k keys -> (0 < rowsOf k keys)%nat.
Proof.
  intros k keys. unfold rowsOf. induction keys as [|k0 keys IH]; intros Hin; [destruct Hin|].
  cbn [filter]. destruct (groupKey_eqb k k0) eqn:E; [cbn; lia|].
  destruct Hin as [->|Hin]; [|exact (IH Hin)].
  rewrite groupKey_eqb_refl in E. discriminate E.
Qed.

(** Every cohort entry of a period carries a number: above 3 in the
    frequent cohort, from 1 to 3 in the other. *)
Lemma reportFor_thresholds : forall from to w,
  Forall (fun u => exists n, userSummary.accessCount u = Some n /\ 3 < n)
    (detailedReport.frequent_users (reportFor from to w))
  /\ Forall (fun u => exists n, userSummary.accessCount u = Some n /\ 1 <= n <= 3)
       (detailedReport.infrequent_users (reportFor from to w)).
Proof.
  intros from to w. unfold reportFor, detailedReportOf.
  cbn [detailedReport.frequent_users detailedReport.infrequent_users].
  destruct (countByPerson_rows from to (db_access w)) as (_ & Hin & Hcount & _).
  split; apply Forall_forall; intros u' Hu'; apply in_map_iff in Hu';
    destruct Hu' as (u & <- & Hu); apply filter_In in Hu; destruct Hu as [Hu Hcmp];
    unfold userSummaryOf; cbn [userSummary.accessCount];
    rewrite (Hcount u Hu), parseInt_decimal in *; cbn [gt le] in Hcmp.
  - eexists. split; [reflexivity|]. apply Z.ltb_lt. exact Hcmp.
  - eexists. split; [reflexivity|]. apply Z.leb_le in Hcmp. split; [|exact Hcmp].
    assert (Hk : In (rowKey u) (completedKeys from to (db_access w))).
    { apply Hin. apply in_map. exact Hu. }
    pose proof (rowsOf_positive _ _ Hk). lia.
Qed.

(** X14: a person with no completed access in the period (only cancelled or
    still open ones, or none) is in neither cohort: the grouped query has no
    row for that person. *)
Theorem X14_no_completed_access_no_cohort : forall from to rows k,
  (forall a, In a rows -> whereCompleted from to a = true -> groupKey a <> k) ->
  Forall (fun u => rowKey u <> k)
    (frequentUsers (countByPerson from to rows)
     ++ infrequentUsers (countByPerson from to rows)).
Proof.
  intros from to rows k Hnone. apply Forall_forall. intros u Hu Hk.
  assert (Hin : In u (countByPerson from to rows)).
  { apply in_app_or in Hu. unfold frequentUsers, infrequentUsers in Hu.
    destruct Hu as [Hu|Hu]; apply filter_In in Hu; exact (proj1 Hu). }
  destruct (countByPerson_rows from to rows) as (_ & Hkeys & _).
  assert (Hkey : In k (completedKeys from to rows)).
  { apply Hkeys. rewrite <- Hk. apply in_map. exact Hin. }
  unfold completedKeys in Hkey. apply in_map_iff in Hkey.
  destruct Hkey as (a & Ha & Hfa). apply filter_In in Hfa.
  exact (Hnone a (proj1 Hfa) (proj2 Hfa) Ha).
Qed.

Variable host : Host.

(** What a custom report that carries data was computed from, and what it
    left in the snapshot table. *)
Lemma getDateReport_data : forall req w d,
  data (fst (getDateReport host req w)) = Some d ->
  exists t1 t2,
    newDate host (start_date (query req)) = Some t1
    /\ newDate host (end_date (query req)) = Some t2
    /\ d = reportFor t1 (setHours host t2 23 59 59 999) w
    /\ db_administration (snd (getDateReport host req w))
       = db_administration w ++ [newReportOf t1 d].
Proof.
  intros req w d. unfold getDateReport, getDateReport_body.
  destruct (falsy (start_date (query req)) || falsy (end_date (query req)));
    [intros H; discriminate H|].
  destruct (newDate host (start_date (query req))) as [t1|]; [|intros H; discriminate H].
  destruct (newDate host (end_date (query req))) as [t2|]; [|intros H; discriminate H].
  cbn [option_map]. unfold tryCatch.
  destruct (generateReport_outcome t1 (setHours host t2 23 59 59 999) t1
              "Custom report generated and saved successfully" w)
    as [(Hr & Hdb & _) | (e & Hr & _ & _)];
    destruct (generateReport _ _ _ _ w) as [c w']; cbn [fst snd] in *; subst c;
    cbn [fst snd data ok failureWith]; intros [= <-].
  exists t1, t2. repeat split. exact Hdb.
Qed.

Lemma generateDailyReport_data : forall req w d,
  data (fst (generateDailyReport host req w)) = Some d ->
  d = reportFor (startOfMonth host (madridWallClock host (clock w)))
        (endOfToday host (madridWallClock host (clock w))) w
  /\ db_administration (snd (generateDailyReport host req w))
     = db_administration w ++ [newReportOf (madridWallClock host (clock w)) d].
Proof.
  intros req w d. rewrite generateDailyReport_eq. unfold tryCatch.
  destruct (generateReport_outcome
              (startOfMonth host (madridWallClock host (clock w)))
              (endOfToday host (madridWallClock host (clock w)))
              (madridWallClock host (clock w))
              "Daily report generated and saved successfully" w)
    as [(Hr & Hdb & _) | (e & Hr & _ & _)];
    destruct (generateReport _ _ _ _ w) as [c w']; cbn [fst snd] in *; subst c;
    cbn [fst snd data ok failureWith]; intros [= <-].
  split; [reflexivity | exact Hdb].
Qed.

Lemma report_data : forall req w d,
  data (fst (getDateReport host req w)) = Some d
  \/ data (fst (generateDailyReport host req w)) = Some d ->
  exists from to, d = reportFor from to w.
Proof.
  intros req w d [H|H].
  - destruct (getDateReport_data req w d H) as (t1 & t2 & _ & _ & -> & _).
    eexists. eexists. reflexivity.
  - destruct (generateDailyReport_data req w d H) as (-> & _).
    eexists. eexists. reflexivity.
Qed.

(** X12: in the data of a report, total_accesses is the number of lines
    under accesses, total_absences the number of lines under absences, and
    the access counts of the frequent and infrequent users add up to
    total_accesses: every completed access is counted for exactly one
    listed user. *)
Theorem X12_report_totals_agree : forall req w d,
  data (fst (getDateReport host req w)) = Some d
  \/ data (fst (generateDailyReport host req w)) = Some d ->
  detailedReport.total_accesses d = Z.of_nat (List.length (detailedReport.accesses d))
  /\ detailedReport.total_absences d = Z.of_nat (List.length (detailedReport.absences d))
  /\ countSum (detailedReport.frequent_users d)
     + countSum (detailedReport.infrequent_users d)
     = detailedReport.total_accesses d.
Proof.
  intros req w d H. destruct (report_data req w d H) as (from & to & ->).
  split; [|split].
  - unfold reportFor, detailedReportOf.
    cbn [detailedReport.total_accesses detailedReport.accesses].
    rewrite length_map. reflexivity.
  - unfold reportFor, detailedReportOf.
    cbn [detailedReport.total_absences detailedReport.absences].
    rewrite length_map. reflexivity.
  - apply reportFor_countSum.
Qed.

(** X13: in the data of a report, every frequent user carries an access
    count above 3 and every infrequent user one from 1 to 3: no entry has a
    count of 0 or a count that is not a number. *)
Theorem X13_cohort_counts_within_bounds : forall req w d,
  data (fst (getDateReport host req w)) = Some d
  \/ data (fst (generateDailyReport host req w)) = Some d ->
  Forall (fun u => exists n, userSummary.accessCount u = Some n /\ 3 < n)
    (detailedReport.frequent_users d)
  /\ Forall (fun u => exists n, userSummary.accessCount u = Some n /\ 1 <= n <= 3)
       (detailedReport.infrequent_users d).
Proof.
  intros req w d H. destruct (report_data req w d H) as (from & to & ->).
  apply reportFor_thresholds.
Qed.

(** X15: the snapshot row saved by a report repeats the response: the same
    two totals and the same two cohort lists.  Its report_date is the parsed
    start_date for getDateReport (not the day the report was asked for), and
    the Madrid wall-clock time of the request for generateDailyReport. *)
Theorem X15_snapshot_repeats_the_response : forall req w,
  (forall d, data (fst (getDateReport host req w)) = Some d ->
     exists row,
       db_administration (snd (getDateReport host req w)) = db_administration w ++ [row]
       /\ newDate host (start_date (query req)) = Some (administration.report_date row)
       /\ administration.total_accesses row = detailedReport.total_accesses d
       /\ administration.total_absences row = detailedReport.total_absences d
       /\ administration.frequent_users row = detailedReport.frequent_users d
       /\ administration.infrequent_users row = detailedReport.infrequent_users d)
  /\ (forall d, data (fst (generateDailyReport host req w)) = Some d ->
       exists row,
         db_administration (snd (generateDailyReport host req w))
         = db_administration w ++ [row]
         /\ administration.report_date row = madridWallClock host (clock w)
         /\ administration.total_accesses row = detailedReport.total_accesses d
         /\ administration.total_absences row = detailedReport.total_absences d
         /\ administration.frequent_users row = detailedReport.frequent_users d
         /\ administration.infrequent_users row = detailedReport.infrequent_users d).
Proof.
  intros req w. split; intros d H.
  - destruct (getDateReport_data req w d H) as (t1 & t2 & H1 & _ & _ & Hdb).
    exists (newReportOf t1 d). split; [exact Hdb|]. split; [exact H1|].
    repeat split; reflexivity.
  - destruct (generateDailyReport_data req w d H) as (_ & Hdb).
    exists (newReportOf (madridWallClock host (clock w)) d). split; [exact Hdb|].
    repeat split; reflexivity.
Qed.

Lemma generateReport_calm : forall from to report_date msg w,
  calm w ->
  fst (generateReport from to report_date msg w)
    = Returned (ok 201 msg (reportFor from to w))
  /\ db_administration (snd (generateReport from to report_date msg w))
     = db_administration w ++ [newReportOf report_date (reportFor from to w)].
Proof.
  intros from to report_date msg w Hcalm.
  destruct (generateReport_outcome from to report_date msg w)
    as [(Hr & Hdb & _) | (e & _ & Hin & _)]; [split; assumption|].
  unfold calm in Hcalm.
  pose proof (proj1 (Forall_forall _ _) Hcalm (Some e) Hin) as H. discriminate H.
Qed.

Lemma Between_empty : forall from to v, to < from -> typeorm.Between from to v = false.
Proof.
  intros from to v H. unfold typeorm.Between.
  destruct (Z.leb_spec from v), (Z.leb_spec v to); try reflexivity. lia.
Qed.

Lemma filter_nothing : forall (A : Type) (p : A -> bool) (l : list A),
  (forall x, p x = false) -> filter p l = [].
Proof.
  intros A p l H. induction l as [|x l IH]; [reflexivity|].
  cbn [filter]. rewrite H. exact IH.
Qed.

(** X16: getDateReport does not compare its two dates.  When the end date
    (at 23:59:59.999) lies before the start date, and nothing fails, it
    still answers 201: a report with no accesses, no absences and two empty
    cohorts, and a snapshot row of zeros is saved for it. *)
Theorem X16_inverted_period_gives_an_empty_report : forall req w t1 t2,
  falsy (start_date (query req)) = false ->
  falsy (end_date (query req)) = false ->
  newDate host (start_date (query req)) = Some t1 ->
  newDate host (end_date (query req)) = Some t2 ->
  setHours host t2 23 59 59 999 < t1 ->
  calm w ->
  status (fst (getDateReport host req w)) = 201
  /\ data (fst (getDateReport host req w))
     = Some {| detailedReport.report_period_start_date := t1;
               detailedReport.report_period_end_date := setHours host t2 23 59 59 999;
               detailedReport.total_accesses := 0;
               detailedReport.total_absences := 0;
               detailedReport.accesses := [];
               detailedReport.absences := [];
               detailedReport.frequent_users := [];
               detailedReport.infrequent_users := [] |}
  /\ db_administration (snd (getDateReport host req w))
     = db_administration w
       ++ [{| administration.report_date := t1;
              administration.total_accesses := 0;
              administration.total_absences := 0;
              administration.frequent_users := [];
              administration.infrequent_users := [] |}].
Proof.
  intros req w t1 t2 Hs He Hs3 He3 Hinv Hcalm.
  assert (Hempty : reportFor t1 (setHours host t2 23 59 59 999) w
    = {| detailedReport.report_period_start_date := t1;
         detailedReport.report_period_end_date := setHours host t2 23 59 59 999;
         detailedReport.total_accesses := 0;
         detailedReport.total_absences := 0;
         detailedReport.accesses := [];
         detailedReport.absences := [];
         detailedReport.frequent_users := [];
         detailedReport.infrequent_users := [] |}).
  { unfold reportFor, countByPerson, completedKeys.
    rewrite !filter_nothing; [reflexivity | | |];
      intros a; unfold whereCompleted, whereCancelled;
      rewrite (Between_empty _ _ _ Hinv); reflexivity. }
  unfold getDateReport, getDateReport_body.
  rewrite Hs, He, Hs3, He3. cbn [orb option_map]. unfold tryCatch.
  destruct (generateReport_calm t1 (setHours host t2 23 59 59 999) t1
              "Custom report generated and saved successfully" w Hcalm) as (Hr & Hdb).
  destruct (generateReport _ _ _ _ w) as [c w']; cbn [fst snd] in *; subst c.
  cbn [fst snd status data ok]. rewrite Hdb, Hempty.
  repeat split; reflexivity.
Qed.


End ReportContents.

(** ** The further properties at work on the sample data *)

Section MoreWorked.

Lemma X1_invalid_room_id_is_rejected_first_witness :
  (rejected 400 (getRoomAccessHistories UTC.host Cases.notARoom (Sample.world []))
     (Sample.world [])
   /\ message (fst (getRoomAccessHistories UTC.host Cases.notARoom (Sample.world [])))
      = "Invalid room ID")
  /\ message (fst (getRoomAccessHistories UTC.host Cases.trailingText (Sample.world [])))
     <> "Invalid room ID".
Proof.
  exact (conj
           (proj1 (X1_invalid_room_id_is_rejected_first UTC.host Cases.notARoom
                     (Sample.world [])) eq_refl)
           (proj2 (proj2 (X1_invalid_room_id_is_rejected_first UTC.host
                            Cases.trailingText (Sample.world [])))
              "1"%char "2abc" eq_refl eq_refl)).
Defined.

(** White space before the number is skipped, outside the ASCII range too:
    a no-break space (bytes C2 A0) or a byte order mark (EF BB BF) before
    the digits leaves the number; a 0x prefix makes the digits
    hexadecimal; what follows the digits is ignored. *)
Example parseInt_texts :
  parseInt (String (ascii_of_nat 194) (String (ascii_of_nat 160) "1")) = Some 1
  /\ parseInt (String (ascii_of_nat 239)
                 (String (ascii_of_nat 187) (String (ascii_of_nat 191) " 42")))
     = Some 42
  /\ parseInt "0x1A" = Some 26
  /\ parseInt "0xg" = None
  /\ parseInt "-7.5" = Some (-7)
  /\ parseInt "" = None.
Proof. vm_compute. repeat split; reflexivity. Qed.

(** A room id written with a no-break space before its digit is the id of
    the room: the request is answered with the histories of room 1. *)
Example getRoomAccessHistories_no_break_space :
  option_map roomHistories.room_id
    (data (fst (getRoomAccessHistories UTC.host
                  (Sample.request (QString "2024-03-01") (QString "2024-03-31")
                     (String (ascii_of_nat 194) (String (ascii_of_nat 160) "1")))
                  (Sample.world []))))
  = Some 1.
Proof. vm_compute. reflexivity. Qed.

Lemma X2_non_string_dates_are_rejected_witness :
  rejected 400 (getAccessHistories UTC.host Cases.repeatedStart (Sample.world []))
    (Sample.world [])
  /\ message (fst (getAccessHistories UTC.host Cases.repeatedStart (Sample.world [])))
     = "Start date and end date are required".
Proof.
  destruct (X2_non_string_dates_are_rejected UTC.host Cases.repeatedStart (Sample.world [])
              (or_introl eq_refl)) as (H1 & H2 & _).
  exact (conj H1 H2).
Defined.

Lemma X3_getAccessHistories_returns_the_period_witness :
  status (fst (getAccessHistories UTC.host Sample.march (Sample.world []))) = 200
  /\ log (snd (getAccessHistories UTC.host Sample.march (Sample.world [])))
     = log (Sample.world []) ++ [accessHistory_find].
Proof.
  destruct (X3_getAccessHistories_returns_the_period UTC.host Sample.march (Sample.world [])
              Cases.march1 Cases.march31 eq_refl eq_refl eq_refl eq_refl eq_refl)
    as (H1 & _ & _ & H4).
  exact (conj H1 H4).
Defined.

Lemma X4_getRoomAccessHistories_returns_the_room_witness :
  status (fst (getRoomAccessHistories UTC.host Sample.march (Sample.world []))) = 200
  /\ log (snd (getRoomAccessHistories UTC.host Sample.march (Sample.world [])))
     = log (Sample.world []) ++ [room_findOne; accessHistory_find].
Proof.
  destruct (X4_getRoomAccessHistories_returns_the_room UTC.host Sample.march
              (Sample.world []) 1 Cases.march1 Cases.march31 Sample.lab
              eq_refl eq_refl eq_refl eq_refl eq_refl eq_refl eq_refl eq_refl)
    as (H1 & _ & H3).
  exact (conj H1 H3).
Defined.

Lemma X10_room_without_accesses_witness :
  roomStats1 Sample.busyDay Cases.attic
  = {| roomStat.room_id := 3; roomStat.room_name := "Attic";
       roomStat.total_accesses := 0; roomStat.completed_accesses := 0;
       roomStat.cancelled_accesses := 0; roomStat.total_hours_used := zero;
       roomStat.average_duration := zero |}.
Proof.
  refine (X10_room_without_accesses Sample.busyDay Cases.attic _).
  intros a Ha. cbn [Sample.busyDay In] in Ha.
  repeat (destruct Ha as [<- | Ha]; [discriminate|]). destruct Ha.
Defined.

Lemma X11_usage_totals_account_for_every_access_witness :
  status (fst (getRoomUsageStats UTC.host Sample.march (Sample.world Sample.busyDay)))
  = 200.
Proof.
  refine (proj1 (X11_usage_totals_account_for_every_access UTC.host Sample.march
                   (Sample.world Sample.busyDay) eq_refl eq_refl _)).
  repeat constructor; cbn; intuition discriminate.
Defined.

Lemma X12_report_totals_agree_witness :
  countSum (detailedReport.frequent_users
              (reportFor Cases.march1 Cases.march31End (Sample.world Sample.busyDay)))
  + countSum (detailedReport.infrequent_users
                (reportFor Cases.march1 Cases.march31End (Sample.world Sample.busyDay)))
  = detailedReport.total_accesses
      (reportFor Cases.march1 Cases.march31End (Sample.world Sample.busyDay)).
Proof.
  refine (proj2 (proj2 (X12_report_totals_agree UTC.host Sample.march
                          (Sample.world Sample.busyDay)
                          (reportFor Cases.march1 Cases.march31End
                             (Sample.world Sample.busyDay)) _))).
  left. vm_compute. reflexivity.
Defined.

Lemma X13_cohort_counts_within_bounds_witness :
  Forall (fun u => exists n, userSummary.accessCount u = Some n /\ 3 < n)
    (detailedReport.frequent_users
       (reportFor Cases.march1 Cases.march31End (Sample.world Sample.busyDay))).
Proof.
  refine (proj1 (X13_cohort_counts_within_bounds UTC.host Sample.march
                   (Sample.world Sample.busyDay)
                   (reportFor Cases.march1 Cases.march31End
                      (Sample.world Sample.busyDay)) _)).
  left. vm_compute. reflexivity.
Defined.

Lemma X14_no_completed_access_no_cohort_witness :
  Forall (fun u => rowKey u <> typeorm.groupKey (Sample.cancelledBooking Cases.eva Sample.lab))
    (frequentUsers (typeorm.countByPerson Sample.day (Sample.day + 86399999) Cases.withEva)
     ++ infrequentUsers
          (typeorm.countByPerson Sample.day (Sample.day + 86399999) Cases.withEva)).
Proof.
  refine (X14_no_completed_access_no_cohort Sample.day (Sample.day + 86399999)
            Cases.withEva
            (typeorm.groupKey (Sample.cancelledBooking Cases.eva Sample.lab)) _).
  intros a Ha Hdone. cbn [Cases.withEva Sample.busyDay In] in Ha.
  repeat (destruct Ha as [<- | Ha]; [first [discriminate Hdone | discriminate]|]).
  destruct Ha.
Defined.

Lemma X15_snapshot_repeats_the_response_witness :
  exists row,
    db_administration
      (snd (getDateReport UTC.host Sample.march (Sample.world Sample.busyDay)))
    = db_administration (Sample.world Sample.busyDay) ++ [row]
    /\ administration.report_date row = Cases.march1
    /\ administration.total_accesses row = 5.
Proof.
  destruct (proj1 (X15_snapshot_repeats_the_response UTC.host Sample.march
                     (Sample.world Sample.busyDay))
              (reportFor Cases.march1 Cases.march31End (Sample.world Sample.busyDay)))
    as (row & H1 & H2 & H3 & _).
  - vm_compute. reflexivity.
  - exists row. split; [exact H1|]. split.
    + change (newDate UTC.host (start_date (query Sample.march))) with (Some Cases.march1)
        in H2.
      injection H2 as H2. symmetry. exact H2.
    + rewrite H3. vm_compute. reflexivity.
Defined.

Lemma X16_inverted_period_gives_an_empty_report_witness :
  status (fst (getDateReport UTC.host Cases.inverted (Sample.world Sample.busyDay))) = 201
  /\ List.length
       (db_administration
          (snd (getDateReport UTC.host Cases.inverted (Sample.world Sample.busyDay))))
     = 1%nat.
Proof.
  destruct (X16_inverted_period_gives_an_empty_report UTC.host Cases.inverted
              (Sample.world Sample.busyDay) Cases.march31 Cases.march1
              eq_refl eq_refl eq_refl eq_refl eq_refl (Forall_nil _))
    as (H1 & _ & H3).
  split; [exact H1|]. rewrite H3. reflexivity.
Defined.


(** The six accesses of the busy day are all of a listed room: the response
    counts the five that are not cancelled and the one that is. *)
Example getRoomUsageStats_busyDay :
  option_map (fun d => (usageResponse.total_accesses d, usageResponse.total_cancellations d))
    (data (fst (getRoomUsageStats UTC.host Sample.march (Sample.world Sample.busyDay))))
  = Some (5, 1).
Proof. vm_compute. reflexivity. Qed.

End MoreWorked.
